(** * Client-secret authentication methods of go-azure-helpers

    A shallow embedding of the two files of package [authentication]:

    - [auth_method_client_secret.go]
      (type [servicePrincipalClientSecretAuth]), and
    - its multi-tenant sibling
      (type [servicePrincipalClientSecretMultiTenantAuth]).

    Go strings are byte strings ([string]); a Go [error] value is [option error]
    ([None] is [nil]); a nilable pointer or interface is an [option]; calls
    into the Azure SDK packages (adal, autorest, hamilton) are the actions of
    a small free monad [Go], so that the order and the arguments of the calls
    a method makes are part of its meaning. *)

From Stdlib Require Import String Ascii List Bool PeanoNat DecimalString.
Import ListNotations.
Open Scope string_scope.

(* ================================================================= *)
(** ** Package [strings] and package [fmt] *)

Module strings.

(** [strings.Contains(s, substr)]. *)
Fixpoint Contains (s substr : string) : bool :=
  prefix substr s ||
  match s with
  | EmptyString => false
  | String _ s' => Contains s' substr
  end.

Fixpoint memByte (c : ascii) (cutset : string) : bool :=
  match cutset with
  | EmptyString => false
  | String d cutset' => Ascii.eqb c d || memByte c cutset'
  end.

(** [strings.TrimRight(s, cutset)] for a cutset of ASCII bytes: the longest
    suffix of [s] made of bytes of [cutset] is removed. *)
Fixpoint TrimRight (s cutset : string) : string :=
  match s with
  | EmptyString => EmptyString
  | String c s' =>
      match TrimRight s' cutset with
      | EmptyString => if memByte c cutset then EmptyString else String c EmptyString
      | r => String c r
      end
  end.

(** [strings.Join(elems, sep)]. *)
Fixpoint Join (elems : list string) (sep : string) : string :=
  match elems with
  | [] => ""
  | [e] => e
  | e :: rest => e ++ sep ++ Join rest sep
  end.

(** [strings.Repeat(s, count)]. *)
Fixpoint Repeat (s : string) (count : nat) : string :=
  match count with
  | O => ""
  | S n => s ++ Repeat s n
  end.

(** [strings.HasSuffix(s, suffix)]. *)
Fixpoint HasSuffix (s suffix : string) : bool :=
  String.eqb s suffix ||
  match s with
  | EmptyString => false
  | String _ s' => HasSuffix s' suffix
  end.

End strings.

Module fmt.

(** [fmt.Sprintf] restricted to what the two files use: the verbs [%s],
    [%v] and [%d], each consuming one operand that the caller has already
    rendered ([%v] of an error is its [Error()] text), and [%%]. A verb
    without operand prints Go's [%!v(MISSING)]. *)
Fixpoint Sprintf (format : string) (a : list string) : string :=
  match format with
  | EmptyString => EmptyString
  | String "%" (String v rest) =>
      if Ascii.eqb v "%" then String "%" (Sprintf rest a)
      else if Ascii.eqb v "s" || Ascii.eqb v "v" || Ascii.eqb v "d" then
        match a with
        | x :: a' => x ++ Sprintf rest a'
        | [] => "%!" ++ String v "(MISSING)" ++ Sprintf rest []
        end
      else String "%" (String v (Sprintf rest a))
  | String c rest => String c (Sprintf rest a)
  end.

(** [strconv.Itoa] on a length, the operand of [%d]. *)
Definition Itoa (n : nat) : string := NilEmpty.string_of_uint (Nat.to_uint n).

End fmt.

(* ================================================================= *)
(** ** Errors: [fmt.Errorf] and package [go-multierror] *)

(** An [error] is either a plain error carrying its message (what
    [fmt.Errorf] and the SDK return) or a [*multierror.Error] with its
    [Errors] slice. *)
#[warnings="-register-all"]
Inductive error : Type :=
| errorString (msg : string)
| multierrorError (Errors : list error).

Definition newline : string := String (ascii_of_nat 10) "".
Definition tab : string := String (ascii_of_nat 9) "".

Module multierror.

(** The variable [var err *multierror.Error]: [None] is the nil pointer,
    [Some es] a struct whose [Errors] field is [es]. *)
Definition Error : Type := option (list error).

(** [multierror.Append(err, e)]: a nil [err] is initialised, a
    multierror operand is flattened into the list. *)
Definition Append (err : Error) (e : error) : list error :=
  let es := match err with None => [] | Some es => es end in
  match e with
  | multierrorError es' => (es ++ es')%list
  | _ => (es ++ [e])%list
  end.

(** Method [ErrorOrNil] of the pointer type. *)
Definition ErrorOrNil (err : Error) : option error :=
  match err with
  | None => None
  | Some es => if Nat.eqb (List.length es) 0 then None else Some (multierrorError es)
  end.

(** [multierror.ListFormatFunc], the default formatter, on the rendered
    messages of the wrapped errors. *)
Definition ListFormatFunc (es : list string) : string :=
  match es with
  | [e] =>
      fmt.Sprintf ("1 error occurred:" ++ newline ++ tab ++ "* %s" ++ newline ++ newline) [e]
  | _ =>
      let points := map (fun e => fmt.Sprintf "* %s" [e]) es in
      fmt.Sprintf ("%d errors occurred:" ++ newline ++ tab ++ "%s" ++ newline ++ newline)
                  [fmt.Itoa (List.length es); strings.Join points (newline ++ tab)]
  end.

End multierror.

(** The [Error()] method of an error value. *)
Fixpoint error_Error (e : error) : string :=
  match e with
  | errorString msg => msg
  | multierrorError es => multierror.ListFormatFunc (map error_Error es)
  end.

(** [fmt.Errorf(format, a...)]. *)
Definition fmt_Errorf (format : string) (a : list string) : error :=
  errorString (fmt.Sprintf format a).

(** An error value (or nil) mentions [what] when its message contains it. *)
Definition mentions (e : option error) (what : string) : bool :=
  match e with
  | None => false
  | Some e => strings.Contains (error_Error e) what
  end.

(* ================================================================= *)
(** ** The SDK packages the methods call into *)

(** The types of the imported packages whose values the two files only pass
    around: they stay abstract. *)
Class SDK : Type := {
  context_Context : Type;                  (* context.Context *)
  context_Background : context_Context;    (* context.Background() *)
  autorest_Sender : Type;                  (* autorest.Sender *)
  autorest_Authorizer : Type;              (* autorest.Authorizer *)
  adal_OAuthConfig : Type;                 (* adal.OAuthConfig *)
  adal_MultiTenantOAuthConfig : Type;      (* adal.MultiTenantOAuthConfig *)
  adal_ServicePrincipalToken : Type;       (* a reference to an adal.ServicePrincipalToken *)
  environments_Environment : Type;         (* environments.Environment *)
  auth_Authorizer : Type;                  (* auth.Authorizer *)
  (* the type assertion authorizer.(autorest.Authorizer): the asserted value,
     or None when the dynamic type lacks the method set *)
  asAutorestAuthorizer : auth_Authorizer -> option autorest_Authorizer;
}.

(** Package [auth] of hamilton: the configuration the v2 path fills in. *)
Module auth.
Section Config.
Context {sdk : SDK}.

(** The type [auth.TokenVersion] and its constants. *)
Inductive tokenVersion : Type := TokenVersion1 | TokenVersion2.

(** The type [auth.ClientCredentialsType] and its constants. *)
Inductive ClientCredentialsType : Type :=
| ClientCredentialsAssertionType
| ClientCredentialsSecretType.

(** [auth.ClientCredentialsConfig], the fields the two files set. *)
Record ClientCredentialsConfig : Type := {
  Environment : environments_Environment;
  TenantID : string;
  ClientID : string;
  ClientSecret : string;
  Scopes : list string;
  TokenVersion : tokenVersion;
}.
End Config.
End auth.

Section Packages.
Context {sdk : SDK}.

(** [adal.MultiTenantServicePrincipalToken]. *)
Record adal_MultiTenantServicePrincipalToken : Type := {
  PrimaryToken : option adal_ServicePrincipalToken;
  AuxiliaryTokens : list (option adal_ServicePrincipalToken);
}.

(** The calls the two files make into the SDK. *)
Inductive sdkCall : Type :=
| environments_EnvironmentFromString (env : string)
| conf_TokenSource (conf : auth.ClientCredentialsConfig) (ctx : context_Context)
                   (authType : auth.ClientCredentialsType)
| adal_NewServicePrincipalToken (oauthConfig : adal_OAuthConfig)
                                (clientID secret resource : string)
| adal_NewMultiTenantServicePrincipalToken
    (multiTenantCfg : adal_MultiTenantOAuthConfig) (clientID secret resource : string)
| spt_SetSender (spt : adal_ServicePrincipalToken) (s : autorest_Sender)
| autorest_NewBearerAuthorizer (tp : option adal_ServicePrincipalToken)
| autorest_NewMultiTenantServicePrincipalTokenAuthorizer
    (tp : option adal_MultiTenantServicePrincipalToken).

(** What each call answers. *)
Definition sdkResult (c : sdkCall) : Type :=
  match c with
  | environments_EnvironmentFromString _ => environments_Environment * option error
  | conf_TokenSource _ _ _ => auth_Authorizer
  | adal_NewServicePrincipalToken _ _ _ _ =>
      option adal_ServicePrincipalToken * option error
  | adal_NewMultiTenantServicePrincipalToken _ _ _ _ =>
      option adal_MultiTenantServicePrincipalToken * option error
  | spt_SetSender _ _ => unit
  | autorest_NewBearerAuthorizer _ => autorest_Authorizer
  | autorest_NewMultiTenantServicePrincipalTokenAuthorizer _ => autorest_Authorizer
  end%type.

(** A Go computation: it returns, panics, or calls the SDK and goes on
    with the answer. *)
Inductive Go (A : Type) : Type :=
| Return (a : A)
| Panic (msg : string)
| Call (c : sdkCall) (k : sdkResult c -> Go A).

Arguments Return {A} a.
Arguments Panic {A} msg.
Arguments Call {A} c k.

Fixpoint bind {A B : Type} (m : Go A) (f : A -> Go B) : Go B :=
  match m with
  | Return a => f a
  | Panic msg => Panic msg
  | Call c k => Call c (fun r => bind (k r) f)
  end.

Definition call (c : sdkCall) : Go (sdkResult c) := Call c (fun r => Return r).

(** The runtime panic of a nil dereference. *)
Definition nilDereference {A : Type} : Go A :=
  Panic "runtime error: invalid memory address or nil pointer dereference".

(** [*p] and [p.field] on a nilable pointer. *)
Definition deref {A : Type} (p : option A) : Go A :=
  match p with
  | Some v => Return v
  | None => nilDereference
  end.

(** [for _, x := range xs { body(x) }]. *)
Fixpoint forRange {A : Type} (xs : list A) (body : A -> Go unit) : Go unit :=
  match xs with
  | [] => Return tt
  | x :: xs' => bind (body x) (fun _ => forRange xs' body)
  end.

(** *** Running a computation against an SDK *)

(** An SDK with internal state [W] answers each call and moves on. *)
Definition handler (W : Type) : Type := forall c : sdkCall, W -> sdkResult c * W.

Inductive outcome (A : Type) : Type :=
| Returned (a : A)
| Panicked (msg : string).

Arguments Returned {A} a.
Arguments Panicked {A} msg.

(** [run h w m] is the outcome of [m], the SDK state it leaves and the
    calls it made, oldest first. *)
Fixpoint run {W A : Type} (h : handler W) (w : W) (m : Go A)
  : outcome A * W * list sdkCall :=
  match m with
  | Return a => (Returned a, w, [])
  | Panic msg => (Panicked msg, w, [])
  | Call c k =>
      let '(r, w') := h c w in
      let '(o, w'', calls) := run h w' (k r) in
      (o, w'', c :: calls)
  end.

Definition result {W A : Type} (x : outcome A * W * list sdkCall) : outcome A :=
  fst (fst x).
Definition calls {W A : Type} (x : outcome A * W * list sdkCall) : list sdkCall :=
  snd x.

(** The configurations handed to [TokenSource] among some calls. *)
Definition tokenSourceConfigs (cs : list sdkCall) : list auth.ClientCredentialsConfig :=
  flat_map (fun c => match c with
                     | conf_TokenSource conf _ _ => [conf]
                     | _ => []
                     end) cs.

End Packages.

Arguments Return {sdk A} a.
Arguments Panic {sdk A} msg.
Arguments Call {sdk A} c k.
Arguments Returned {A} a.
Arguments Panicked {A} msg.

Declare Scope go_scope.
Delimit Scope go_scope with go.
Notation "x <- m ;; k" := (bind m (fun x => k))
  (at level 61, m at next level, right associativity) : go_scope.
Notation "' pat <- m ;; k" := (bind m (fun x => match x with pat => k end))
  (at level 61, pat pattern, m at next level, right associativity) : go_scope.

(* ================================================================= *)
(** ** Package [authentication]: the collaborators *)

Section Collaborators.
Context {sdk : SDK}.

(** Modelled from the spec: the [Builder] struct is declared outside the
    two files; these are the fields they read (spec, section 6). *)
Record Builder : Type := {
  Context : option context_Context;
  ClientID : string;
  ClientSecret : string;
  Environment : string;
  SubscriptionID : string;
  TenantID : string;
  TenantOnly : bool;
  AuxiliaryTenantIDs : list string;
  SupportsClientSecretAuth : bool;
  SupportsAuxiliaryTenants : bool;
}.

(** Modelled from the spec: the [OAuthConfig] struct is declared outside
    the two files; each reads one of its two pointer fields. *)
Record OAuthConfig : Type := {
  OAuth : option adal_OAuthConfig;
  MultiTenantOauth : option adal_MultiTenantOAuthConfig;
}.

(** What the token methods return: [(autorest.Authorizer, error)]. *)
Definition tokenResult : Type := (option autorest_Authorizer * option error)%type.

End Collaborators.

(** Modelled from the spec: the [Config] struct and the helper
    [buildServicePrincipalObjectIDFunc] are declared outside the two files.
    [populateConfig] writes two fields of the struct; what else it holds is
    [otherFields]. The helper is given the pointer and returns a callback. *)
Class ConfigPackage : Type := {
  ObjectIDFunc : Type;        (* the callback type of GetAuthenticatedObjectID *)
  ConfigRest : Type;          (* the fields of Config the two files leave alone *)
  buildServicePrincipalObjectIDFunc : nat -> ObjectIDFunc;
}.

Section Configs.
Context {pkg : ConfigPackage}.

Record Config : Type := {
  AuthenticatedAsAServicePrincipal : bool;
  GetAuthenticatedObjectID : option ObjectIDFunc;
  otherFields : ConfigRest;
}.

(** The [Config] structs of the program, by address; a [*Config] is
    [Some] address or nil. *)
Definition ConfigStore : Type := nat -> Config.

(** [c.AuthenticatedAsAServicePrincipal = v] on the struct at [p]. *)
Definition setAuthenticatedAsAServicePrincipal (st : ConfigStore) (p : nat) (v : bool)
  : ConfigStore :=
  fun q => if Nat.eqb q p
           then {| AuthenticatedAsAServicePrincipal := v;
                   GetAuthenticatedObjectID := GetAuthenticatedObjectID (st p);
                   otherFields := otherFields (st p) |}
           else st q.

(** [c.GetAuthenticatedObjectID = f] on the struct at [p]. *)
Definition setGetAuthenticatedObjectID (st : ConfigStore) (p : nat)
           (f : option ObjectIDFunc) : ConfigStore :=
  fun q => if Nat.eqb q p
           then {| AuthenticatedAsAServicePrincipal :=
                     AuthenticatedAsAServicePrincipal (st p);
                   GetAuthenticatedObjectID := f;
                   otherFields := otherFields (st p) |}
           else st q.

(** What a method on a [*Config] leaves: how it ended, and the structs. *)
Definition configResult : Type := (outcome (option error) * ConfigStore)%type.

Definition nilDereferenceMessage : string :=
  "runtime error: invalid memory address or nil pointer dereference".

End Configs.

(* ================================================================= *)
(** ** [servicePrincipalClientSecretAuth] (auth_method_client_secret.go) *)

Module servicePrincipalClientSecretAuth.
Section Methods.
Context {sdk : SDK}.
Local Open Scope go_scope.

Record t : Type := {
  ctx : option context_Context;
  clientId : string;
  clientSecret : string;
  environment : string;
  subscriptionId : string;
  tenantId : string;
  tenantOnly : bool;
}.

Definition build (a : t) (b : Builder) : t * option error :=
  let method := {|
    ctx := b.(Context);
    clientId := b.(ClientID);
    clientSecret := b.(ClientSecret);
    environment := b.(Environment);
    subscriptionId := b.(SubscriptionID);
    tenantId := b.(TenantID);
    tenantOnly := b.(TenantOnly);
  |} in
  (method, None).

Definition isApplicable (a : t) (b : Builder) : bool :=
  b.(SupportsClientSecretAuth) && negb (String.eqb b.(ClientSecret) "").

Definition name (a : t) : string := "Service Principal / Client Secret".

Definition getAuthorizationToken (a : t) (sender : autorest_Sender)
           (oauth : option OAuthConfig) (endpoint : string) : Go tokenResult :=
  o <- deref oauth ;;
  match o.(OAuth) with
  | None =>
      Return (None, Some (fmt_Errorf "getting Authorization Token for client secret auth: an OAuth token wasn't configured correctly; please file a bug with more details" []))
  | Some oauthConfig =>
      '(spt, err) <- call (adal_NewServicePrincipalToken
                             oauthConfig a.(clientId) a.(clientSecret) endpoint) ;;
      match err with
      | Some e => Return (None, Some e)
      | None =>
          p <- deref spt ;;
          _ <- call (spt_SetSender p sender) ;;
          authorizer <- call (autorest_NewBearerAuthorizer spt) ;;
          Return (Some authorizer, None)
      end
  end.

Definition getAuthorizationTokenV2 (a : t) (_ : autorest_Sender)
           (_ : option OAuthConfig) (endpoint : string) : Go tokenResult :=
  '(environment, err) <- call (environments_EnvironmentFromString a.(environment)) ;;
  match err with
  | Some e =>
      Return (None, Some (fmt_Errorf "environment config error: %v" [error_Error e]))
  | None =>
      let conf := {|
        auth.Environment := environment;
        auth.TenantID := a.(tenantId);
        auth.ClientID := a.(clientId);
        auth.ClientSecret := a.(clientSecret);
        auth.Scopes := [fmt.Sprintf "%s/.default" [strings.TrimRight endpoint "/"]];
        auth.TokenVersion := auth.TokenVersion2;
      |} in
      let ctx := match a.(ctx) with
                 | None => context_Background
                 | Some c => c
                 end in
      authorizer <- call (conf_TokenSource conf ctx auth.ClientCredentialsSecretType) ;;
      match asAutorestAuthorizer authorizer with
      | Some authTyped => Return (Some authTyped, None)
      | None =>
          Return (None, Some (fmt_Errorf "returned auth.Authorizer does not implement autorest.Authorizer" []))
      end
  end.

Definition validate (a : t) : option error :=
  let err : multierror.Error := None in
  let fmtErrorMessage :=
    "A %s must be configured when authenticating as a Service Principal using a Client Secret." in
  let err := if negb a.(tenantOnly) && String.eqb a.(subscriptionId) ""
             then Some (multierror.Append err (fmt_Errorf fmtErrorMessage ["Subscription ID"]))
             else err in
  let err := if String.eqb a.(clientId) ""
             then Some (multierror.Append err (fmt_Errorf fmtErrorMessage ["Client ID"]))
             else err in
  let err := if String.eqb a.(clientSecret) ""
             then Some (multierror.Append err (fmt_Errorf fmtErrorMessage ["Client Secret"]))
             else err in
  let err := if String.eqb a.(tenantId) ""
             then Some (multierror.Append err (fmt_Errorf fmtErrorMessage ["Tenant ID"]))
             else err in
  multierror.ErrorOrNil err.

Context {pkg : ConfigPackage}.

Definition populateConfig (a : t) (c : option nat) (st : ConfigStore) : configResult :=
  match c with
  | None => (Panicked nilDereferenceMessage, st)
  | Some p =>
      let st := setAuthenticatedAsAServicePrincipal st p true in
      let st := setGetAuthenticatedObjectID
                  st p (Some (buildServicePrincipalObjectIDFunc p)) in
      (Returned None, st)
  end.

End Methods.
End servicePrincipalClientSecretAuth.

(* ================================================================= *)
(** ** [servicePrincipalClientSecretMultiTenantAuth] (the multi-tenant file) *)

Module servicePrincipalClientSecretMultiTenantAuth.
Section Methods.
Context {sdk : SDK}.
Local Open Scope go_scope.

Record t : Type := {
  ctx : option context_Context;
  clientId : string;
  clientSecret : string;
  environment : string;
  subscriptionId : string;
  tenantId : string;
  tenantOnly : bool;
  auxiliaryTenantIDs : list string;
}.

Definition build (a : t) (b : Builder) : t * option error :=
  let method := {|
    ctx := b.(Context);
    clientId := b.(ClientID);
    clientSecret := b.(ClientSecret);
    environment := b.(Environment);
    subscriptionId := b.(SubscriptionID);
    tenantId := b.(TenantID);
    tenantOnly := b.(TenantOnly);
    auxiliaryTenantIDs := b.(AuxiliaryTenantIDs);
  |} in
  (method, None).

Definition isApplicable (a : t) (b : Builder) : bool :=
  b.(SupportsClientSecretAuth) && negb (String.eqb b.(ClientSecret) "")
  && b.(SupportsAuxiliaryTenants) && Nat.ltb 0 (List.length b.(AuxiliaryTenantIDs)).

Definition name (a : t) : string := "Multi Tenant Service Principal / Client Secret".

Definition getAuthorizationToken (a : t) (sender : autorest_Sender)
           (oauth : option OAuthConfig) (endpoint : string) : Go tokenResult :=
  o <- deref oauth ;;
  match o.(MultiTenantOauth) with
  | None =>
      Return (None, Some (fmt_Errorf "getting Authorization Token for client cert: an MultiTenantOauth token wasn't configured correctly; please file a bug with more details" []))
  | Some multiTenantCfg =>
      '(spt, err) <- call (adal_NewMultiTenantServicePrincipalToken
                             multiTenantCfg a.(clientId) a.(clientSecret) endpoint) ;;
      match err with
      | Some e => Return (None, Some e)
      | None =>
          p <- deref spt ;;
          primary <- deref p.(PrimaryToken) ;;
          _ <- call (spt_SetSender primary sender) ;;
          _ <- forRange p.(AuxiliaryTokens)
                 (fun t => q <- deref t ;; call (spt_SetSender q sender)) ;;
          auth <- call (autorest_NewMultiTenantServicePrincipalTokenAuthorizer spt) ;;
          Return (Some auth, None)
      end
  end.

Definition getAuthorizationTokenV2 (a : t) (_ : autorest_Sender)
           (_ : option OAuthConfig) (endpoint : string) : Go tokenResult :=
  '(environment, err) <- call (environments_EnvironmentFromString a.(environment)) ;;
  match err with
  | Some e =>
      Return (None, Some (fmt_Errorf "environment config error: %v" [error_Error e]))
  | None =>
      let conf := {|
        auth.Environment := environment;
        auth.TenantID := a.(tenantId);
        auth.ClientID := a.(clientId);
        auth.ClientSecret := a.(clientSecret);
        auth.Scopes := [fmt.Sprintf "%s/.default" [strings.TrimRight endpoint "/"]];
        auth.TokenVersion := auth.TokenVersion2;
      |} in
      let ctx := match a.(ctx) with
                 | None => context_Background
                 | Some c => c
                 end in
      authorizer <- call (conf_TokenSource conf ctx auth.ClientCredentialsSecretType) ;;
      match asAutorestAuthorizer authorizer with
      | Some authTyped => Return (Some authTyped, None)
      | None =>
          Return (None, Some (fmt_Errorf "returned auth.Authorizer does not implement autorest.Authorizer" []))
      end
  end.

Definition validate (a : t) : option error :=
  let err : multierror.Error := None in
  let fmtErrorMessage :=
    "%s must be configured when authenticating as a Service Principal using a Multi Tenant Client Secret." in
  let err := if negb a.(tenantOnly) && String.eqb a.(subscriptionId) ""
             then Some (multierror.Append err (fmt_Errorf fmtErrorMessage ["Subscription ID"]))
             else err in
  let err := if String.eqb a.(clientId) ""
             then Some (multierror.Append err (fmt_Errorf fmtErrorMessage ["Client ID"]))
             else err in
  let err := if String.eqb a.(clientSecret) ""
             then Some (multierror.Append err (fmt_Errorf fmtErrorMessage ["Client Secret"]))
             else err in
  let err := if String.eqb a.(tenantId) ""
             then Some (multierror.Append err (fmt_Errorf fmtErrorMessage ["Tenant ID"]))
             else err in
  let err := if Nat.eqb (List.length a.(auxiliaryTenantIDs)) 0
             then Some (multierror.Append err (fmt_Errorf fmtErrorMessage ["Auxiliary Tenant IDs"]))
             else err in
  multierror.ErrorOrNil err.

Context {pkg : ConfigPackage}.

Definition populateConfig (a : t) (c : option nat) (st : ConfigStore) : configResult :=
  match c with
  | None => (Panicked nilDereferenceMessage, st)
  | Some p =>
      let st := setAuthenticatedAsAServicePrincipal st p true in
      let st := setGetAuthenticatedObjectID
                  st p (Some (buildServicePrincipalObjectIDFunc p)) in
      (Returned None, st)
  end.

End Methods.
End servicePrincipalClientSecretMultiTenantAuth.

(* ================================================================= *)
(** ** The interface [authMethod] over the two implementations *)

Module single := servicePrincipalClientSecretAuth.
Module multi := servicePrincipalClientSecretMultiTenantAuth.

Section Interface.
Context {sdk : SDK}.

(** A value of interface type [authMethod] whose dynamic type is one of
    the two structs. *)
Inductive authMethod : Type :=
| ofClientSecret (a : single.t)
| ofClientSecretMultiTenant (a : multi.t).

Definition build (m : authMethod) (b : Builder) : authMethod * option error :=
  match m with
  | ofClientSecret a => let '(method, err) := single.build a b in (ofClientSecret method, err)
  | ofClientSecretMultiTenant a =>
      let '(method, err) := multi.build a b in (ofClientSecretMultiTenant method, err)
  end.

Definition isApplicable (m : authMethod) (b : Builder) : bool :=
  match m with
  | ofClientSecret a => single.isApplicable a b
  | ofClientSecretMultiTenant a => multi.isApplicable a b
  end.

Definition getAuthorizationToken (m : authMethod) (sender : autorest_Sender)
           (oauth : option OAuthConfig) (endpoint : string) : Go tokenResult :=
  match m with
  | ofClientSecret a => single.getAuthorizationToken a sender oauth endpoint
  | ofClientSecretMultiTenant a => multi.getAuthorizationToken a sender oauth endpoint
  end.

Definition getAuthorizationTokenV2 (m : authMethod) (sender : autorest_Sender)
           (oauth : option OAuthConfig) (endpoint : string) : Go tokenResult :=
  match m with
  | ofClientSecret a => single.getAuthorizationTokenV2 a sender oauth endpoint
  | ofClientSecretMultiTenant a => multi.getAuthorizationTokenV2 a sender oauth endpoint
  end.

Definition validate (m : authMethod) : option error :=
  match m with
  | ofClientSecret a => single.validate a
  | ofClientSecretMultiTenant a => multi.validate a
  end.

(** The fields the two structs share, read through the interface value. *)
Definition environmentOf (m : authMethod) : string :=
  match m with
  | ofClientSecret a => single.environment a
  | ofClientSecretMultiTenant a => multi.environment a
  end.

Definition subscriptionIdOf (m : authMethod) : string :=
  match m with
  | ofClientSecret a => single.subscriptionId a
  | ofClientSecretMultiTenant a => multi.subscriptionId a
  end.

Definition tenantOnlyOf (m : authMethod) : bool :=
  match m with
  | ofClientSecret a => single.tenantOnly a
  | ofClientSecretMultiTenant a => multi.tenantOnly a
  end.

(** *** Vocabulary of the specification *)

(** A builder with other auxiliary-tenant fields. *)
Definition withAuxiliaryTenants (b : Builder) (supports : bool) (ids : list string)
  : Builder :=
  {| Context := b.(Context);
     ClientID := b.(ClientID);
     ClientSecret := b.(ClientSecret);
     Environment := b.(Environment);
     SubscriptionID := b.(SubscriptionID);
     TenantID := b.(TenantID);
     TenantOnly := b.(TenantOnly);
     AuxiliaryTenantIDs := ids;
     SupportsClientSecretAuth := b.(SupportsClientSecretAuth);
     SupportsAuxiliaryTenants := supports |}.

(** A multi-tenant instance with other auxiliary tenant ids. *)
Definition withAuxiliaryTenantIDs (a : multi.t) (ids : list string) : multi.t :=
  {| multi.ctx := multi.ctx a;
     multi.clientId := multi.clientId a;
     multi.clientSecret := multi.clientSecret a;
     multi.environment := multi.environment a;
     multi.subscriptionId := multi.subscriptionId a;
     multi.tenantId := multi.tenantId a;
     multi.tenantOnly := multi.tenantOnly a;
     multi.auxiliaryTenantIDs := ids |}.

Definition whenEmpty (s : string) (what : string) : list string :=
  if String.eqb s "" then [what] else [].

(** The required fields a single-tenant instance lacks, in the order of
    the specification: subscription id (unless tenant-only), client id,
    client secret, tenant id. *)
Definition single_missing (a : single.t) : list string :=
  ((if single.tenantOnly a then [] else whenEmpty (single.subscriptionId a) "Subscription ID")
     ++ whenEmpty (single.clientId a) "Client ID"
     ++ whenEmpty (single.clientSecret a) "Client Secret"
     ++ whenEmpty (single.tenantId a) "Tenant ID")%list.

(** The multi-tenant variant requires a non-empty auxiliary list too. *)
Definition multi_missing (a : multi.t) : list string :=
  ((if multi.tenantOnly a then [] else whenEmpty (multi.subscriptionId a) "Subscription ID")
     ++ whenEmpty (multi.clientId a) "Client ID"
     ++ whenEmpty (multi.clientSecret a) "Client Secret"
     ++ whenEmpty (multi.tenantId a) "Tenant ID"
     ++ match multi.auxiliaryTenantIDs a with
        | [] => ["Auxiliary Tenant IDs"]
        | _ => []
        end)%list.

(** The violation reported for a missing field. *)
Definition single_violation (what : string) : error :=
  errorString ("A " ++ what ++ " must be configured when authenticating as a Service Principal using a Client Secret.").

Definition multi_violation (what : string) : error :=
  errorString (what ++ " must be configured when authenticating as a Service Principal using a Multi Tenant Client Secret.").

(** Nil for no violation, one aggregated error otherwise. *)
Definition aggregated (violations : list error) : option error :=
  match violations with
  | [] => None
  | _ => Some (multierrorError violations)
  end.

(** What the environment resolver of SDK [h] in state [w] says of a name. *)
Definition resolve {W : Type} (h : handler W) (w : W) (env : string)
  : environments_Environment * option error :=
  fst (h (environments_EnvironmentFromString env) w).

(** The scope of an endpoint: trailing slashes off, then the suffix. *)
Definition scopeOf (endpoint : string) : string :=
  strings.TrimRight endpoint "/" ++ "/.default".

End Interface.

(* ================================================================= *)
(** ** What a computation can do, whatever the SDK answers *)

Section Logic.
Context {sdk : SDK}.

(** The SDK state a run leaves. *)
Definition finalState {W A : Type} (x : outcome A * W * list sdkCall) : W :=
  snd (fst x).

(** Every value the computation can return satisfies [P]. *)
Inductive returnsOnly {A : Type} (P : A -> Prop) : Go A -> Prop :=
| returnsOnly_Return (a : A) : P a -> returnsOnly P (Return a)
| returnsOnly_Panic (msg : string) : returnsOnly P (Panic msg)
| returnsOnly_Call (c : sdkCall) (k : sdkResult c -> Go A) :
    (forall r, returnsOnly P (k r)) -> returnsOnly P (Call c k).

(** Every call the computation can make satisfies [P]. *)
Inductive callsOnly {A : Type} (P : sdkCall -> Prop) : Go A -> Prop :=
| callsOnly_Return (a : A) : callsOnly P (Return a)
| callsOnly_Panic (msg : string) : callsOnly P (Panic msg)
| callsOnly_Call (c : sdkCall) (k : sdkResult c -> Go A) :
    P c -> (forall r, callsOnly P (k r)) -> callsOnly P (Call c k).

(** The computation cannot panic. *)
Inductive neverPanics {A : Type} : Go A -> Prop :=
| neverPanics_Return (a : A) : neverPanics (Return a)
| neverPanics_Call (c : sdkCall) (k : sdkResult c -> Go A) :
    (forall r, neverPanics (k r)) -> neverPanics (Call c k).

(** The calls of the legacy path, into adal and autorest. *)
Definition isLegacyCall (c : sdkCall) : Prop :=
  match c with
  | adal_NewServicePrincipalToken _ _ _ _
  | adal_NewMultiTenantServicePrincipalToken _ _ _ _
  | spt_SetSender _ _
  | autorest_NewBearerAuthorizer _
  | autorest_NewMultiTenantServicePrincipalTokenAuthorizer _ => True
  | _ => False
  end.

(** The calls of the v2 path, into hamilton. *)
Definition isV2Call (c : sdkCall) : Prop :=
  match c with
  | environments_EnvironmentFromString _
  | conf_TokenSource _ _ _ => True
  | _ => False
  end.

(** Of an authorizer and an error, exactly one is nil. *)
Definition authorizerXorError (r : tokenResult) : Prop :=
  match r with
  | (Some _, None) | (None, Some _) => True
  | _ => False
  end.

(** The context the v2 path hands on: the instance's, or the background
    context when it has none. *)
Definition contextOf (m : authMethod) : context_Context :=
  match match m with
        | ofClientSecret a => single.ctx a
        | ofClientSecretMultiTenant a => multi.ctx a
        end with
  | Some c => c
  | None => context_Background
  end.

Definition clientIdOf (m : authMethod) : string :=
  match m with
  | ofClientSecret a => single.clientId a
  | ofClientSecretMultiTenant a => multi.clientId a
  end.

Definition clientSecretOf (m : authMethod) : string :=
  match m with
  | ofClientSecret a => single.clientSecret a
  | ofClientSecretMultiTenant a => multi.clientSecret a
  end.

Definition tenantIdOf (m : authMethod) : string :=
  match m with
  | ofClientSecret a => single.tenantId a
  | ofClientSecretMultiTenant a => multi.tenantId a
  end.

Context {pkg : ConfigPackage}.

Definition populateConfig (m : authMethod) (c : option nat) (st : ConfigStore)
  : configResult :=
  match m with
  | ofClientSecret a => single.populateConfig a c st
  | ofClientSecretMultiTenant a => multi.populateConfig a c st
  end.

End Logic.

(* ================================================================= *)
(** ** A concrete SDK, to run the methods on examples *)

Module sample.

(** Every opaque value is a numbered handle; an environment is its name;
    an [auth.Authorizer] with an even handle implements
    [autorest.Authorizer]. *)
#[local] Instance sdk : SDK := {|
  context_Context := nat;
  context_Background := 0;
  autorest_Sender := nat;
  autorest_Authorizer := nat;
  adal_OAuthConfig := nat;
  adal_MultiTenantOAuthConfig := nat;
  adal_ServicePrincipalToken := nat;
  environments_Environment := string;
  auth_Authorizer := nat;
  asAutorestAuthorizer := fun n => if Nat.even n then Some n else None;
|}.

(** The names hamilton's [EnvironmentFromString] knows. *)
Definition knownEnvironments : list string :=
  ["global"; "public"; "usgovernment"; "usgovernmentl4"; "dod"; "usgovernmentl5";
   "canary"; "china"; "germany"].

(** The state is the next free handle. *)
Definition sdkHandler : handler nat :=
  fun c =>
    match c return nat -> sdkResult c * nat with
    | environments_EnvironmentFromString env =>
        fun w =>
          if existsb (String.eqb env) knownEnvironments
          then ((env, None), w)
          else (("", Some (fmt_Errorf "invalid environment specified: %s" [env])), w)
    | conf_TokenSource _ _ _ => fun w => (2 * w, S w)
    | adal_NewServicePrincipalToken _ _ _ _ => fun w => ((Some w, None), S w)
    | adal_NewMultiTenantServicePrincipalToken _ _ _ _ =>
        fun w => ((Some {| PrimaryToken := Some w; AuxiliaryTokens := [Some (S w)] |}, None),
                  S (S w))
    | spt_SetSender _ _ => fun w => (tt, w)
    | autorest_NewBearerAuthorizer _ => fun w => (w, S w)
    | autorest_NewMultiTenantServicePrincipalTokenAuthorizer _ => fun w => (w, S w)
    end.

Definition builder : Builder :=
  {| Context := Some 7;
     ClientID := "client";
     ClientSecret := "s3cret";
     Environment := "public";
     SubscriptionID := "sub";
     TenantID := "tenant";
     TenantOnly := false;
     AuxiliaryTenantIDs := ["aux1"; "aux2"];
     SupportsClientSecretAuth := true;
     SupportsAuxiliaryTenants := true |}.

Definition emptySingle : single.t :=
  {| single.ctx := None; single.clientId := ""; single.clientSecret := "";
     single.environment := ""; single.subscriptionId := ""; single.tenantId := "";
     single.tenantOnly := false |}.

(** As [emptySingle], but with a subscription id. *)
Definition subscribedSingle : single.t :=
  {| single.ctx := None; single.clientId := ""; single.clientSecret := "";
     single.environment := ""; single.subscriptionId := "sub"; single.tenantId := "";
     single.tenantOnly := false |}.

Definition goodSingle : single.t := fst (single.build emptySingle builder).

Definition emptyMulti : multi.t :=
  {| multi.ctx := None; multi.clientId := ""; multi.clientSecret := "";
     multi.environment := ""; multi.subscriptionId := ""; multi.tenantId := "";
     multi.tenantOnly := false; multi.auxiliaryTenantIDs := [] |}.

Definition goodMulti : multi.t := fst (multi.build emptyMulti builder).

(** All fields valid, no auxiliary tenant. *)
Definition noAuxMulti : multi.t :=
  {| multi.ctx := None; multi.clientId := "client"; multi.clientSecret := "s3cret";
     multi.environment := "public"; multi.subscriptionId := "sub";
     multi.tenantId := "tenant"; multi.tenantOnly := false;
     multi.auxiliaryTenantIDs := [] |}.

(** Tenant-only instances without subscription id. *)
Definition tenantOnlySingle : single.t :=
  {| single.ctx := None; single.clientId := "client"; single.clientSecret := "";
     single.environment := "public"; single.subscriptionId := ""; single.tenantId := "";
     single.tenantOnly := true |}.

(** An instance whose environment name hamilton does not know. *)
Definition moonMulti : multi.t :=
  {| multi.ctx := None; multi.clientId := "client"; multi.clientSecret := "s3cret";
     multi.environment := "moon"; multi.subscriptionId := "sub";
     multi.tenantId := "tenant"; multi.tenantOnly := false;
     multi.auxiliaryTenantIDs := ["aux1"] |}.

Definition noMultiTenantOauth : OAuthConfig :=
  {| OAuth := Some 1; MultiTenantOauth := None |}.

(** An OAuth configuration of both shapes, and one without the
    single-tenant part. *)
Definition bothOauth : OAuthConfig :=
  {| OAuth := Some 1; MultiTenantOauth := Some 2 |}.

Definition noOauth : OAuthConfig :=
  {| OAuth := None; MultiTenantOauth := Some 2 |}.

(** An SDK whose token constructors fail. *)
Definition refused : error := errorString "adal: refused".

Definition failingHandler : handler nat :=
  fun c =>
    match c return nat -> sdkResult c * nat with
    | adal_NewServicePrincipalToken _ _ _ _ => fun w => ((None, Some refused), w)
    | adal_NewMultiTenantServicePrincipalToken _ _ _ _ =>
        fun w => ((None, Some refused), w)
    | c' => sdkHandler c'
    end.

(** The credentials of [goodSingle] under another tenant and cloud. *)
Definition otherTenantSingle : single.t :=
  {| single.ctx := None; single.clientId := "client"; single.clientSecret := "s3cret";
     single.environment := "china"; single.subscriptionId := "";
     single.tenantId := "elsewhere"; single.tenantOnly := true |}.

(** A builder with a secret and no client id. *)
Definition noClientBuilder : Builder :=
  {| Context := None;
     ClientID := "";
     ClientSecret := "s3cret";
     Environment := "public";
     SubscriptionID := "sub";
     TenantID := "tenant";
     TenantOnly := false;
     AuxiliaryTenantIDs := ["aux1"];
     SupportsClientSecretAuth := true;
     SupportsAuxiliaryTenants := true |}.

End sample.

(* ================================================================= *)
(** ** Facts about the string functions *)

Lemma eqb_empty (s : string) : String.eqb s "" = true <-> s = "".
Proof. apply String.eqb_eq. Qed.

Lemma eqb_nonempty (s : string) : negb (String.eqb s "") = true <-> s <> "".
Proof.
  rewrite negb_true_iff. split.
  - intros E H. apply eqb_empty in H. congruence.
  - intros H. destruct (String.eqb s "") eqn:E; [apply eqb_empty in E; contradiction | reflexivity].
Qed.

Lemma prefix_app (p s : string) : prefix p (p ++ s) = true.
Proof.
  induction p as [|c p IH]; simpl.
  - destruct s; reflexivity.
  - destruct (ascii_dec c c); [exact IH | contradiction].
Qed.

Lemma prefix_split (p s : string) : prefix p s = true -> exists q, s = p ++ q.
Proof.
  revert s. induction p as [|c p IH]; intros s H.
  - exists s. reflexivity.
  - destruct s as [|d s]; simpl in H; [discriminate|].
    destruct (ascii_dec c d) as [->|]; [|discriminate].
    destruct (IH _ H) as [q ->]. exists q. reflexivity.
Qed.

(** [strings.Contains] finds exactly the substrings. *)
Lemma Contains_spec (s sub : string) :
  strings.Contains s sub = true <-> exists p q, s = p ++ sub ++ q.
Proof.
  split.
  - induction s as [|c s IH]; cbn [strings.Contains];
      rewrite orb_true_iff; intros [H|H].
    + destruct (prefix_split _ _ H) as [q E]. exists "", q. exact E.
    + discriminate.
    + destruct (prefix_split _ _ H) as [q E]. exists "", q. exact E.
    + destruct (IH H) as (p & q & ->). exists (String c p), q. reflexivity.
  - intros (p & q & ->). induction p as [|c p IH].
    + change ("" ++ sub ++ q) with (sub ++ q).
      destruct (sub ++ q) eqn:E; cbn [strings.Contains];
        rewrite <- E, prefix_app; reflexivity.
    + change (String c p ++ sub ++ q) with (String c (p ++ sub ++ q)).
      cbn [strings.Contains]. rewrite IH. apply orb_true_r.
Qed.

Lemma HasSuffix_cons (c : ascii) (s suffix : string) :
  strings.HasSuffix (String c s) suffix
  = String.eqb (String c s) suffix || strings.HasSuffix s suffix.
Proof. reflexivity. Qed.

Lemma TrimRight_cons (c : ascii) (s cutset : string) :
  strings.TrimRight (String c s) cutset
  = match strings.TrimRight s cutset with
    | EmptyString => if strings.memByte c cutset then EmptyString else String c EmptyString
    | r => String c r
    end.
Proof. reflexivity. Qed.

(** [TrimRight s "/"] takes trailing slashes off [s], and all of them. *)
Lemma TrimRight_slash_spec (s : string) :
  (exists n, s = strings.TrimRight s "/" ++ strings.Repeat "/" n)
  /\ strings.HasSuffix (strings.TrimRight s "/") "/" = false.
Proof.
  induction s as [|c s [[n IHn] IHs]].
  - split; [exists 0; reflexivity | reflexivity].
  - rewrite TrimRight_cons.
    destruct (strings.TrimRight s "/") as [|d r] eqn:E.
    + change (strings.memByte c "/") with (Ascii.eqb c "/" || false).
      rewrite orb_false_r.
      destruct (Ascii.eqb c "/") eqn:Ec.
      * apply Ascii.eqb_eq in Ec. subst c. split; [|reflexivity].
        exists (S n). simpl in IHn |- *. f_equal. exact IHn.
      * split.
        -- exists n. simpl in IHn |- *. f_equal. exact IHn.
        -- rewrite HasSuffix_cons. simpl. rewrite Ec. reflexivity.
    + split.
      * exists n. simpl in IHn |- *. f_equal. exact IHn.
      * rewrite HasSuffix_cons, IHs, orb_false_r. simpl.
        destruct (Ascii.eqb c "/"); reflexivity.
Qed.

Lemma TrimRight_no_slash (s : string) :
  strings.HasSuffix s "/" = false -> strings.TrimRight s "/" = s.
Proof.
  induction s as [|c s IH]; intros H; [reflexivity|].
  rewrite HasSuffix_cons in H. apply orb_false_iff in H. destruct H as [Hc Hs].
  rewrite TrimRight_cons, (IH Hs).
  destruct s as [|d r]; [|reflexivity].
  simpl in Hc |- *. destruct (Ascii.eqb c "/"); [discriminate | reflexivity].
Qed.

(* ================================================================= *)
(** ** isApplicable *)

(** C1. For every builder, the single-tenant [isApplicable] is true exactly
    when client-secret support is on and the secret is not empty, false
    otherwise, and the auxiliary-tenant fields of the builder play no part. *)
Theorem single_isApplicable_iff `{SDK} (a : single.t) (b : Builder) :
  (single.isApplicable a b = true
   <-> SupportsClientSecretAuth b = true /\ ClientSecret b <> "")
  /\ (single.isApplicable a b = false
      <-> ~ (SupportsClientSecretAuth b = true /\ ClientSecret b <> ""))
  /\ (forall supports ids,
         single.isApplicable a (withAuxiliaryTenants b supports ids)
         = single.isApplicable a b).
Proof.
  assert (T : single.isApplicable a b = true
              <-> SupportsClientSecretAuth b = true /\ ClientSecret b <> "").
  { unfold single.isApplicable. rewrite andb_true_iff, eqb_nonempty. reflexivity. }
  split; [exact T|]. split.
  - rewrite <- T. destruct (single.isApplicable a b); split; congruence.
  - reflexivity.
Qed.

(** C2. For every builder, the multi-tenant [isApplicable] is true exactly
    when client-secret support and auxiliary-tenant support are both on, the
    secret is not empty and the list of auxiliary tenants is not empty;
    false otherwise. *)
Theorem multi_isApplicable_iff `{SDK} (a : multi.t) (b : Builder) :
  (multi.isApplicable a b = true
   <-> SupportsClientSecretAuth b = true /\ ClientSecret b <> ""
       /\ SupportsAuxiliaryTenants b = true /\ AuxiliaryTenantIDs b <> [])
  /\ (multi.isApplicable a b = false
      <-> ~ (SupportsClientSecretAuth b = true /\ ClientSecret b <> ""
             /\ SupportsAuxiliaryTenants b = true /\ AuxiliaryTenantIDs b <> [])).
Proof.
  assert (L : Nat.ltb 0 (List.length (AuxiliaryTenantIDs b)) = true
              <-> AuxiliaryTenantIDs b <> []).
  { destruct (AuxiliaryTenantIDs b); cbn; split; intros E;
      try reflexivity; try discriminate; exfalso; apply E; reflexivity. }
  assert (T : multi.isApplicable a b = true
              <-> SupportsClientSecretAuth b = true /\ ClientSecret b <> ""
                  /\ SupportsAuxiliaryTenants b = true /\ AuxiliaryTenantIDs b <> []).
  { unfold multi.isApplicable. rewrite !andb_true_iff, eqb_nonempty, L. tauto. }
  split; [exact T|].
  rewrite <- T. destruct (multi.isApplicable a b); split; congruence.
Qed.

(* ================================================================= *)
(** ** build *)

(** C9. For every builder and either variant, [build] returns a nil error
    and an instance of the same variant whose fields are the builder's,
    unchanged; the multi-tenant instance has the builder's auxiliary tenant
    ids too. [build] never fails. *)
Theorem build_copies_fields `{SDK} (b : Builder) :
  (forall a : single.t,
      snd (single.build a b) = None
      /\ single.ctx (fst (single.build a b)) = Context b
      /\ single.clientId (fst (single.build a b)) = ClientID b
      /\ single.clientSecret (fst (single.build a b)) = ClientSecret b
      /\ single.environment (fst (single.build a b)) = Environment b
      /\ single.subscriptionId (fst (single.build a b)) = SubscriptionID b
      /\ single.tenantId (fst (single.build a b)) = TenantID b
      /\ single.tenantOnly (fst (single.build a b)) = TenantOnly b)
  /\ (forall a : multi.t,
         snd (multi.build a b) = None
         /\ multi.ctx (fst (multi.build a b)) = Context b
         /\ multi.clientId (fst (multi.build a b)) = ClientID b
         /\ multi.clientSecret (fst (multi.build a b)) = ClientSecret b
         /\ multi.environment (fst (multi.build a b)) = Environment b
         /\ multi.subscriptionId (fst (multi.build a b)) = SubscriptionID b
         /\ multi.tenantId (fst (multi.build a b)) = TenantID b
         /\ multi.tenantOnly (fst (multi.build a b)) = TenantOnly b
         /\ multi.auxiliaryTenantIDs (fst (multi.build a b)) = AuxiliaryTenantIDs b)
  /\ (forall m : authMethod,
         snd (build m b) = None
         /\ match m, fst (build m b) with
            | ofClientSecret a, ofClientSecret a' => a' = fst (single.build a b)
            | ofClientSecretMultiTenant a, ofClientSecretMultiTenant a' =>
                a' = fst (multi.build a b)
            | _, _ => False
            end).
Proof.
  split; [|split].
  - intros a. repeat split.
  - intros a. repeat split.
  - intros [a|a]; split; reflexivity.
Qed.

(* ================================================================= *)
(** ** validate *)

(** Case analysis on what [validate] looks at: which strings are empty,
    the flag, and whether there is an auxiliary tenant. *)
Ltac single_fields a :=
  destruct a as [?ctx [|? ?] [|? ?] ?env [|? ?] [|? ?] [|]].

Ltac multi_fields a :=
  destruct a as [?ctx [|? ?] [|? ?] ?env [|? ?] [|? ?] [|] [|? ?]].

Ltac close_case :=
  repeat match goal with
         | |- _ /\ _ => split
         | |- _ <-> _ => split
         | |- _ -> _ => intro
         | H : _ /\ _ |- _ => destruct H
         | H : False |- _ => destruct H
         | H : ?x <> ?x |- _ => exfalso; apply H; reflexivity
         end;
  subst; try discriminate; try reflexivity; try congruence.

(** Each member of a concrete list of missing fields, in turn. *)
Ltac each_member H :=
  repeat (destruct H as [<-|H]); try (exact (False_ind _ H)).

(** No member of a concrete list of missing fields is the one sought. *)
Ltac no_member H :=
  repeat (destruct H as [E|H]; [discriminate E|]); exact H.

(** [validate] computes the aggregate of the violations of the missing
    required fields, in order and without leaving any out. *)
Lemma single_validate_refines `{SDK} (a : single.t) :
  single.validate a = aggregated (map single_violation (single_missing a)).
Proof. single_fields a; reflexivity. Qed.

Lemma multi_validate_refines `{SDK} (a : multi.t) :
  multi.validate a = aggregated (map multi_violation (multi_missing a)).
Proof. multi_fields a; reflexivity. Qed.

Lemma aggregated_nil_iff (violations : list error) :
  aggregated violations = None <-> violations = [].
Proof. destruct violations; simpl; split; congruence. Qed.

Lemma single_missing_mentioned `{SDK} (a : single.t) (what : string) :
  In what (single_missing a) -> mentions (single.validate a) what = true.
Proof.
  single_fields a; intros HIn; vm_compute in HIn; each_member HIn;
    vm_compute; reflexivity.
Qed.

Lemma multi_missing_mentioned `{SDK} (a : multi.t) (what : string) :
  In what (multi_missing a) -> mentions (multi.validate a) what = true.
Proof.
  multi_fields a; intros HIn; vm_compute in HIn; each_member HIn;
    vm_compute; reflexivity.
Qed.

Lemma single_subscription_mentioned `{SDK} (a : single.t) :
  mentions (single.validate a) "Subscription ID" = true
  <-> single.tenantOnly a = false /\ single.subscriptionId a = "".
Proof. single_fields a; vm_compute; close_case. Qed.

Lemma multi_subscription_mentioned `{SDK} (a : multi.t) :
  mentions (multi.validate a) "Subscription ID" = true
  <-> multi.tenantOnly a = false /\ multi.subscriptionId a = "".
Proof. multi_fields a; vm_compute; close_case. Qed.

(** C3, as the code has it. [validate] on a single-tenant instance returns
    the aggregate of one violation per missing required field, in the order
    subscription id (unless tenant-only), client id, client secret, tenant
    id: none is left out after the first, each missing field is mentioned,
    and the result is nil exactly when no required field is missing. When
    subscriptionId, clientId, clientSecret and tenantId are all empty and
    tenantOnly is false, the one aggregated error holds four violations and
    mentions Subscription ID, Client ID, Client Secret and Tenant ID. *)
Theorem single_validate_aggregates `{SDK} (a : single.t) :
  single.validate a = aggregated (map single_violation (single_missing a))
  /\ (single.validate a = None <-> single_missing a = [])
  /\ (forall what, In what (single_missing a) ->
                   mentions (single.validate a) what = true)
  /\ (single.subscriptionId a = "" -> single.clientId a = "" ->
      single.clientSecret a = "" -> single.tenantId a = "" ->
      single.tenantOnly a = false ->
      single.validate a
      = Some (multierrorError
                (map single_violation
                     ["Subscription ID"; "Client ID"; "Client Secret"; "Tenant ID"]))
      /\ mentions (single.validate a) "Subscription ID" = true
      /\ mentions (single.validate a) "Client ID" = true
      /\ mentions (single.validate a) "Client Secret" = true
      /\ mentions (single.validate a) "Tenant ID" = true).
Proof.
  split; [apply single_validate_refines|].
  split.
  { rewrite single_validate_refines, aggregated_nil_iff.
    destruct (single_missing a); simpl; split; congruence. }
  split; [intros what; apply single_missing_mentioned|].
  destruct a as [c cid csec env sub tid tonly]; simpl.
  intros -> -> -> -> ->. vm_compute. repeat split.
Qed.

(** C4. For an instance of either variant with tenantOnly set and an empty
    subscriptionId, what [validate] returns does not mention Subscription
    ID and Subscription ID is not among the violations; in general the
    Subscription ID violation is there exactly when tenantOnly is false and
    subscriptionId is empty. *)
Theorem validate_tenantOnly_no_subscription `{SDK} (m : authMethod) :
  (tenantOnlyOf m = true -> subscriptionIdOf m = "" ->
   mentions (validate m) "Subscription ID" = false
   /\ match m with
      | ofClientSecret a => ~ In "Subscription ID" (single_missing a)
      | ofClientSecretMultiTenant a => ~ In "Subscription ID" (multi_missing a)
      end)
  /\ (mentions (validate m) "Subscription ID" = true
      <-> tenantOnlyOf m = false /\ subscriptionIdOf m = "").
Proof.
  split.
  - intros Ht Hs. split.
    + destruct (mentions (validate m) "Subscription ID") eqn:E; [|reflexivity].
      destruct m as [a|a]; simpl in *;
        [apply single_subscription_mentioned in E
        |apply multi_subscription_mentioned in E];
        destruct E as [E _]; congruence.
    + destruct m as [a|a]; simpl in Ht, Hs.
      * single_fields a; simpl in Ht, Hs; try discriminate;
          vm_compute; intros HIn; no_member HIn.
      * multi_fields a; simpl in Ht, Hs; try discriminate;
          vm_compute; intros HIn; no_member HIn.
  - destruct m as [a|a]; simpl.
    + apply single_subscription_mentioned.
    + apply multi_subscription_mentioned.
Qed.

(** C5. A multi-tenant instance without auxiliary tenant ids does not
    validate, whatever its other fields: the error is not nil and mentions
    Auxiliary Tenant IDs; when every other field is valid that violation is
    the only one. *)
Theorem multi_validate_requires_auxiliary `{SDK} (a : multi.t) :
  multi.auxiliaryTenantIDs a = [] ->
  multi.validate a <> None
  /\ mentions (multi.validate a) "Auxiliary Tenant IDs" = true
  /\ In "Auxiliary Tenant IDs" (multi_missing a)
  /\ (multi.clientId a <> "" -> multi.clientSecret a <> "" ->
      multi.tenantId a <> "" ->
      (multi.subscriptionId a <> "" \/ multi.tenantOnly a = true) ->
      multi.validate a
      = Some (multierrorError [multi_violation "Auxiliary Tenant IDs"])).
Proof.
  intros Haux.
  assert (HIn : In "Auxiliary Tenant IDs" (multi_missing a)).
  { unfold multi_missing. rewrite Haux. rewrite !in_app_iff. simpl. tauto. }
  split; [|split; [|split]].
  - rewrite multi_validate_refines, aggregated_nil_iff.
    intros E. apply map_eq_nil in E. rewrite E in HIn. exact HIn.
  - apply multi_missing_mentioned, HIn.
  - exact HIn.
  - multi_fields a; simpl in Haux; try discriminate; simpl;
      intros Hc Hs Ht [Hsub|Hto]; close_case.
Qed.

(* ================================================================= *)
(** ** getAuthorizationToken and getAuthorizationTokenV2 *)

(** The error of the v2 path on an unknown environment says so. *)
Lemma environment_error_mentioned (e : error) :
  strings.Contains
    (error_Error (fmt_Errorf "environment config error: %v" [error_Error e]))
    "environment config error" = true.
Proof.
  apply Contains_spec. exists "", (": " ++ error_Error e ++ ""). reflexivity.
Qed.

(** C6. On a multi-tenant instance, with an OAuth configuration whose
    MultiTenantOauth is nil, [getAuthorizationToken] returns at once: no
    authorizer, and an error whose message contains "wasn't configured
    correctly". The SDK is not called, so no token is constructed. *)
Theorem multi_getAuthorizationToken_unconfigured `{SDK}
        (a : multi.t) (sender : autorest_Sender) (oauth : OAuthConfig)
        (endpoint : string) :
  MultiTenantOauth oauth = None ->
  exists err,
    multi.getAuthorizationToken a sender (Some oauth) endpoint
    = Return (None, Some err)
    /\ strings.Contains (error_Error err) "wasn't configured correctly" = true
    /\ (forall (W : Type) (h : handler W) (w : W),
           run h w (getAuthorizationToken (ofClientSecretMultiTenant a)
                                          sender (Some oauth) endpoint)
           = (Returned (None, Some err), w, [])).
Proof.
  intros Hnil. eexists. split; [|split].
  - unfold multi.getAuthorizationToken. simpl. rewrite Hnil. reflexivity.
  - vm_compute. reflexivity.
  - intros W h w. simpl. unfold multi.getAuthorizationToken. simpl.
    rewrite Hnil. reflexivity.
Qed.

(** C7. When the environment resolver answers the instance's environment
    name with an error, [getAuthorizationTokenV2] of either variant, for
    every sender, OAuth configuration and endpoint, returns no authorizer
    and an error whose message contains "environment config error"; the
    resolver was the only call. *)
Theorem getAuthorizationTokenV2_unknown_environment `{SDK} {W : Type}
        (h : handler W) (w : W) (m : authMethod) (sender : autorest_Sender)
        (oauth : option OAuthConfig) (endpoint : string) (e : error) :
  snd (resolve h w (environmentOf m)) = Some e ->
  exists err,
    result (run h w (getAuthorizationTokenV2 m sender oauth endpoint))
    = Returned (None, Some err)
    /\ strings.Contains (error_Error err) "environment config error" = true
    /\ calls (run h w (getAuthorizationTokenV2 m sender oauth endpoint))
       = [environments_EnvironmentFromString (environmentOf m)].
Proof.
  unfold resolve. intros Hres.
  exists (fmt_Errorf "environment config error: %v" [error_Error e]).
  assert (R : run h w (getAuthorizationTokenV2 m sender oauth endpoint)
              = (Returned (None, Some (fmt_Errorf "environment config error: %v"
                                                  [error_Error e])),
                 snd (h (environments_EnvironmentFromString (environmentOf m)) w),
                 [environments_EnvironmentFromString (environmentOf m)])).
  { destruct m as [a|a]; simpl in Hres |- *;
      destruct (h _ w) as [[env err] w']; simpl in Hres |- *; subst err;
      reflexivity. }
  rewrite R. split; [reflexivity|].
  split; [apply environment_error_mentioned | reflexivity].
Qed.

(** The scopes of the token sources a run of the v2 path asks for: none
    when the environment does not resolve, one list otherwise. *)
Lemma single_V2_scopes `{SDK} {W : Type} (h : handler W) (w : W) (a : single.t)
      (sender : autorest_Sender) (oauth : option OAuthConfig) (endpoint : string) :
  map auth.Scopes
      (tokenSourceConfigs
         (calls (run h w (single.getAuthorizationTokenV2 a sender oauth endpoint))))
  = match snd (resolve h w (single.environment a)) with
    | None => [[scopeOf endpoint]]
    | Some _ => []
    end.
Proof.
  unfold resolve, scopeOf, calls. simpl.
  destruct (h _ w) as [[env [e|]] w']; simpl; [reflexivity|].
  destruct (h _ w') as [authorizer w'']. simpl.
  destruct (asAutorestAuthorizer authorizer); reflexivity.
Qed.

Lemma multi_V2_scopes `{SDK} {W : Type} (h : handler W) (w : W) (a : multi.t)
      (sender : autorest_Sender) (oauth : option OAuthConfig) (endpoint : string) :
  map auth.Scopes
      (tokenSourceConfigs
         (calls (run h w (multi.getAuthorizationTokenV2 a sender oauth endpoint))))
  = match snd (resolve h w (multi.environment a)) with
    | None => [[scopeOf endpoint]]
    | Some _ => []
    end.
Proof.
  unfold resolve, scopeOf, calls. simpl.
  destruct (h _ w) as [[env [e|]] w']; simpl; [reflexivity|].
  destruct (h _ w') as [authorizer w'']. simpl.
  destruct (asAutorestAuthorizer authorizer); reflexivity.
Qed.

(** C8. Every client-credentials configuration that
    [getAuthorizationTokenV2] of either variant builds has, as Scopes, the
    one string made of the endpoint without its trailing slashes followed by
    "/.default"; it builds exactly one once the environment resolves. What
    is taken off the endpoint is slashes only, and what is left does not end
    in a slash. The endpoint "https://management.azure.com/" gives
    "https://management.azure.com/.default". *)
Theorem getAuthorizationTokenV2_scope `{SDK} {W : Type}
        (h : handler W) (w : W) (m : authMethod) (sender : autorest_Sender)
        (oauth : option OAuthConfig) (endpoint : string) :
  Forall (fun conf => auth.Scopes conf = [strings.TrimRight endpoint "/" ++ "/.default"])
         (tokenSourceConfigs
            (calls (run h w (getAuthorizationTokenV2 m sender oauth endpoint))))
  /\ (snd (resolve h w (environmentOf m)) = None ->
      map auth.Scopes
          (tokenSourceConfigs
             (calls (run h w (getAuthorizationTokenV2 m sender oauth endpoint))))
      = [[strings.TrimRight endpoint "/" ++ "/.default"]])
  /\ (exists n, endpoint = strings.TrimRight endpoint "/" ++ strings.Repeat "/" n)
  /\ strings.HasSuffix (strings.TrimRight endpoint "/") "/" = false
  /\ (snd (resolve h w (environmentOf m)) = None ->
      endpoint = "https://management.azure.com/" ->
      map auth.Scopes
          (tokenSourceConfigs
             (calls (run h w (getAuthorizationTokenV2 m sender oauth endpoint))))
      = [["https://management.azure.com/.default"]]).
Proof.
  assert (S : map auth.Scopes
                  (tokenSourceConfigs
                     (calls (run h w (getAuthorizationTokenV2 m sender oauth endpoint))))
              = match snd (resolve h w (environmentOf m)) with
                | None => [[scopeOf endpoint]]
                | Some _ => []
                end).
  { destruct m as [a|a].
    - exact (single_V2_scopes h w a sender oauth endpoint).
    - exact (multi_V2_scopes h w a sender oauth endpoint). }
  split.
  { apply Forall_forall. intros conf HIn.
    apply (in_map auth.Scopes) in HIn. rewrite S in HIn.
    destruct (snd (resolve h w (environmentOf m))); simpl in HIn.
    - destruct HIn.
    - destruct HIn as [E|[]]. symmetry. exact E. }
  split; [intros Hres; rewrite S, Hres; reflexivity|].
  split; [apply TrimRight_slash_spec|].
  split; [apply TrimRight_slash_spec|].
  intros Hres ->. rewrite S, Hres. reflexivity.
Qed.

(** C10. A single-tenant and a multi-tenant instance that agree on ctx,
    clientId, clientSecret, environment and tenantId have the same
    [getAuthorizationTokenV2]: for every endpoint (and whatever sender and
    OAuth configuration are passed) the two are the same computation, so
    they make the same calls and give the same result against every SDK.
    The multi-tenant one does not read auxiliaryTenantIDs: other ids leave
    it unchanged. *)
Theorem getAuthorizationTokenV2_variants_agree `{SDK}
        (a1 : single.t) (a2 : multi.t) :
  single.ctx a1 = multi.ctx a2 ->
  single.clientId a1 = multi.clientId a2 ->
  single.clientSecret a1 = multi.clientSecret a2 ->
  single.environment a1 = multi.environment a2 ->
  single.tenantId a1 = multi.tenantId a2 ->
  forall (s1 s2 : autorest_Sender) (o1 o2 : option OAuthConfig) (endpoint : string),
    single.getAuthorizationTokenV2 a1 s1 o1 endpoint
    = multi.getAuthorizationTokenV2 a2 s2 o2 endpoint
    /\ (forall (W : Type) (h : handler W) (w : W),
           run h w (getAuthorizationTokenV2 (ofClientSecret a1) s1 o1 endpoint)
           = run h w (getAuthorizationTokenV2 (ofClientSecretMultiTenant a2)
                                              s2 o2 endpoint))
    /\ (forall ids : list string,
           multi.getAuthorizationTokenV2 (withAuxiliaryTenantIDs a2 ids) s2 o2 endpoint
           = multi.getAuthorizationTokenV2 a2 s2 o2 endpoint).
Proof.
  intros Hctx Hid Hsecret Henv Htenant s1 s2 o1 o2 endpoint.
  assert (E : single.getAuthorizationTokenV2 a1 s1 o1 endpoint
              = multi.getAuthorizationTokenV2 a2 s2 o2 endpoint).
  { destruct a1, a2; simpl in *; subst; reflexivity. }
  split; [exact E|]. split.
  - intros W h w.
    change (run h w (single.getAuthorizationTokenV2 a1 s1 o1 endpoint)
            = run h w (multi.getAuthorizationTokenV2 a2 s2 o2 endpoint)).
    rewrite E. reflexivity.
  - intros ids. reflexivity.
Qed.

(* ================================================================= *)
(** ** The theorems at work on concrete instances *)

(** C3 as first stated, on the four named conditions alone, fails: an
    instance with empty clientId, clientSecret and tenantId and tenantOnly
    false that has a subscription id gets three violations, and its error
    does not mention Subscription ID. *)
Lemma single_validate_subscribed_counterexample :
  (single.clientId sample.subscribedSingle = ""
   /\ single.clientSecret sample.subscribedSingle = ""
   /\ single.tenantId sample.subscribedSingle = ""
   /\ single.tenantOnly sample.subscribedSingle = false)
  /\ single.validate sample.subscribedSingle
     = Some (multierrorError
               (map single_violation ["Client ID"; "Client Secret"; "Tenant ID"]))
  /\ mentions (single.validate sample.subscribedSingle) "Subscription ID" = false.
Proof. vm_compute. repeat split. Qed.

Lemma single_validate_aggregates_witness :
  single.validate sample.emptySingle
  = Some (multierrorError
            (map single_violation
                 ["Subscription ID"; "Client ID"; "Client Secret"; "Tenant ID"]))
  /\ mentions (single.validate sample.emptySingle) "Subscription ID" = true
  /\ mentions (single.validate sample.emptySingle) "Client ID" = true
  /\ mentions (single.validate sample.emptySingle) "Client Secret" = true
  /\ mentions (single.validate sample.emptySingle) "Tenant ID" = true.
Proof.
  apply (single_validate_aggregates sample.emptySingle); reflexivity.
Defined.

Lemma validate_tenantOnly_no_subscription_witness :
  mentions (validate (ofClientSecret sample.tenantOnlySingle)) "Subscription ID" = false
  /\ ~ In "Subscription ID" (single_missing sample.tenantOnlySingle).
Proof.
  apply (validate_tenantOnly_no_subscription (ofClientSecret sample.tenantOnlySingle));
    reflexivity.
Defined.

Lemma multi_validate_requires_auxiliary_witness :
  multi.validate sample.noAuxMulti <> None
  /\ mentions (multi.validate sample.noAuxMulti) "Auxiliary Tenant IDs" = true
  /\ In "Auxiliary Tenant IDs" (multi_missing sample.noAuxMulti)
  /\ (multi.clientId sample.noAuxMulti <> "" ->
      multi.clientSecret sample.noAuxMulti <> "" ->
      multi.tenantId sample.noAuxMulti <> "" ->
      (multi.subscriptionId sample.noAuxMulti <> ""
       \/ multi.tenantOnly sample.noAuxMulti = true) ->
      multi.validate sample.noAuxMulti
      = Some (multierrorError [multi_violation "Auxiliary Tenant IDs"])).
Proof.
  apply (multi_validate_requires_auxiliary sample.noAuxMulti). reflexivity.
Defined.

Lemma multi_getAuthorizationToken_unconfigured_witness :
  exists err,
    multi.getAuthorizationToken sample.goodMulti 5 (Some sample.noMultiTenantOauth)
                                "https://management.azure.com/"
    = Return (None, Some err)
    /\ strings.Contains (error_Error err) "wasn't configured correctly" = true
    /\ (forall (W : Type) (h : handler W) (w : W),
           run h w (getAuthorizationToken (ofClientSecretMultiTenant sample.goodMulti)
                                          5 (Some sample.noMultiTenantOauth)
                                          "https://management.azure.com/")
           = (Returned (None, Some err), w, [])).
Proof.
  apply (multi_getAuthorizationToken_unconfigured
           sample.goodMulti 5 sample.noMultiTenantOauth "https://management.azure.com/").
  reflexivity.
Defined.

Lemma getAuthorizationTokenV2_unknown_environment_witness :
  exists err,
    result (run sample.sdkHandler 10
                (getAuthorizationTokenV2 (ofClientSecretMultiTenant sample.moonMulti)
                                         5 None "https://management.azure.com/"))
    = Returned (None, Some err)
    /\ strings.Contains (error_Error err) "environment config error" = true
    /\ calls (run sample.sdkHandler 10
                  (getAuthorizationTokenV2 (ofClientSecretMultiTenant sample.moonMulti)
                                           5 None "https://management.azure.com/"))
       = [environments_EnvironmentFromString "moon"].
Proof.
  apply (getAuthorizationTokenV2_unknown_environment
           sample.sdkHandler 10 (ofClientSecretMultiTenant sample.moonMulti) 5 None
           "https://management.azure.com/"
           (fmt_Errorf "invalid environment specified: %s" ["moon"])).
  reflexivity.
Defined.

Lemma getAuthorizationTokenV2_scope_witness :
  map auth.Scopes
      (tokenSourceConfigs
         (calls (run sample.sdkHandler 10
                     (getAuthorizationTokenV2 (ofClientSecret sample.goodSingle)
                                              5 None "https://management.azure.com/"))))
  = [["https://management.azure.com/.default"]].
Proof.
  apply (getAuthorizationTokenV2_scope
           sample.sdkHandler 10 (ofClientSecret sample.goodSingle) 5 None
           "https://management.azure.com/"); reflexivity.
Defined.

Lemma getAuthorizationTokenV2_variants_agree_witness :
  run sample.sdkHandler 10
      (getAuthorizationTokenV2 (ofClientSecret sample.goodSingle)
                               5 None "https://management.azure.com/")
  = run sample.sdkHandler 10
        (getAuthorizationTokenV2 (ofClientSecretMultiTenant sample.goodMulti)
                                 6 (Some sample.noMultiTenantOauth)
                                 "https://management.azure.com/").
Proof.
  apply (getAuthorizationTokenV2_variants_agree sample.goodSingle sample.goodMulti);
    reflexivity.
Defined.

(* ================================================================= *)
(** * Further properties of the two files *)

(* ================================================================= *)
(** ** Runs of composed computations *)

Lemma run_bind `{SDK} {W A B : Type} (h : handler W) (m : Go A) (f : A -> Go B) :
  forall w : W,
    run h w (bind m f)
    = match result (run h w m) with
      | Returned a =>
          (result (run h (finalState (run h w m)) (f a)),
           finalState (run h (finalState (run h w m)) (f a)),
           (calls (run h w m) ++ calls (run h (finalState (run h w m)) (f a)))%list)
      | Panicked msg => (Panicked msg, finalState (run h w m), calls (run h w m))
      end.
Proof.
  unfold result, finalState, calls.
  induction m as [a|msg|c k IH]; intros w.
  - simpl. destruct (run h w (f a)) as [[o w'] cs]. reflexivity.
  - reflexivity.
  - simpl. destruct (h c w) as [r w']. rewrite IH.
    destruct (run h w' (k r)) as [[[a|msg] w''] cs]; simpl.
    + destruct (run h w'' (f a)) as [[o w3] cs']. reflexivity.
    + reflexivity.
Qed.

Lemma returnsOnly_run `{SDK} {W A : Type} (P : A -> Prop) (h : handler W) (m : Go A) :
  returnsOnly P m ->
  forall (w : W) (a : A), result (run h w m) = Returned a -> P a.
Proof.
  induction 1 as [a Ha|msg|c k _ IH]; intros w b E.
  - simpl in E. injection E as <-. exact Ha.
  - discriminate.
  - simpl in E. destruct (h c w) as [r w'].
    specialize (IH r w' b).
    destruct (run h w' (k r)) as [[o w''] cs]. exact (IH E).
Qed.

Lemma returnsOnly_bind `{SDK} {A B : Type} (P : B -> Prop) (m : Go A) (f : A -> Go B) :
  (forall a, returnsOnly P (f a)) -> returnsOnly P (bind m f).
Proof.
  intros Hf. induction m as [a|msg|c k IH]; simpl.
  - apply Hf.
  - constructor.
  - constructor. exact IH.
Qed.

Lemma callsOnly_run `{SDK} {W A : Type} (P : sdkCall -> Prop) (h : handler W) (m : Go A) :
  callsOnly P m -> forall w : W, Forall P (calls (run h w m)).
Proof.
  induction 1 as [a|msg|c k Hc _ IH]; intros w.
  - constructor.
  - constructor.
  - simpl. destruct (h c w) as [r w']. specialize (IH r w').
    destruct (run h w' (k r)) as [[o w''] cs]. constructor; assumption.
Qed.

Lemma callsOnly_bind `{SDK} {A B : Type} (P : sdkCall -> Prop) (m : Go A) (f : A -> Go B) :
  callsOnly P m -> (forall a, callsOnly P (f a)) -> callsOnly P (bind m f).
Proof.
  intros Hm Hf. induction Hm as [a|msg|c k Hc _ IH]; simpl.
  - apply Hf.
  - constructor.
  - constructor; assumption.
Qed.

Lemma callsOnly_forRange `{SDK} {A : Type} (P : sdkCall -> Prop) (xs : list A)
      (body : A -> Go unit) :
  (forall x, callsOnly P (body x)) -> callsOnly P (forRange xs body).
Proof.
  intros Hb. induction xs as [|x xs IH]; simpl.
  - constructor.
  - apply callsOnly_bind; [apply Hb | intros _; exact IH].
Qed.

Lemma neverPanics_run `{SDK} {W A : Type} (h : handler W) (m : Go A) :
  neverPanics m -> forall w : W, exists a, result (run h w m) = Returned a.
Proof.
  induction 1 as [a|c k _ IH]; intros w.
  - exists a. reflexivity.
  - simpl. destruct (h c w) as [r w']. destruct (IH r w') as [a E].
    destruct (run h w' (k r)) as [[o w''] cs]. exists a. exact E.
Qed.

(* ================================================================= *)
(** ** The legacy path: getAuthorizationToken *)

(** X1. On a single-tenant instance, with an OAuth configuration whose
    OAuth is nil (whatever its MultiTenantOauth), [getAuthorizationToken]
    returns at once no authorizer and an error whose message contains
    "wasn't configured correctly", without calling the SDK. *)
Theorem single_getAuthorizationToken_unconfigured `{SDK}
        (a : single.t) (sender : autorest_Sender) (oauth : OAuthConfig)
        (endpoint : string) :
  OAuth oauth = None ->
  exists err,
    single.getAuthorizationToken a sender (Some oauth) endpoint
    = Return (None, Some err)
    /\ strings.Contains (error_Error err) "wasn't configured correctly" = true
    /\ (forall (W : Type) (h : handler W) (w : W),
           run h w (getAuthorizationToken (ofClientSecret a) sender (Some oauth) endpoint)
           = (Returned (None, Some err), w, [])).
Proof.
  intros Hnil. eexists. split; [|split].
  - unfold single.getAuthorizationToken. simpl. rewrite Hnil. reflexivity.
  - vm_compute. reflexivity.
  - intros W h w. simpl. unfold single.getAuthorizationToken. simpl.
    rewrite Hnil. reflexivity.
Qed.

(** X2. With a nil [*OAuthConfig], [getAuthorizationToken] of either
    variant panics on the dereference before any call into the SDK. *)
Theorem getAuthorizationToken_nil_OAuthConfig `{SDK} {W : Type}
        (h : handler W) (w : W) (m : authMethod) (sender : autorest_Sender)
        (endpoint : string) :
  exists msg,
    run h w (getAuthorizationToken m sender None endpoint) = (Panicked msg, w, [])
    /\ strings.Contains msg "nil pointer dereference" = true.
Proof.
  exists nilDereferenceMessage. split; [destruct m; reflexivity | vm_compute; reflexivity].
Qed.

(** X3. When [adal.NewServicePrincipalToken] fails, the single-tenant
    [getAuthorizationToken] returns no authorizer and that very error; the
    constructor, given the OAuth configuration, the instance's clientId and
    clientSecret and the endpoint as it came, was the only call: no sender
    is bound and no authorizer built. *)
Theorem single_getAuthorizationToken_upstream_error `{SDK} {W : Type}
        (h : handler W) (w : W) (a : single.t) (sender : autorest_Sender)
        (oauth : OAuthConfig) (cfg : adal_OAuthConfig) (endpoint : string) (e : error) :
  OAuth oauth = Some cfg ->
  snd (fst (h (adal_NewServicePrincipalToken
                 cfg (single.clientId a) (single.clientSecret a) endpoint) w)) = Some e ->
  result (run h w (single.getAuthorizationToken a sender (Some oauth) endpoint))
  = Returned (None, Some e)
  /\ calls (run h w (single.getAuthorizationToken a sender (Some oauth) endpoint))
     = [adal_NewServicePrincipalToken
          cfg (single.clientId a) (single.clientSecret a) endpoint].
Proof.
  intros Hcfg Herr. unfold single.getAuthorizationToken, result, calls. simpl.
  rewrite Hcfg. simpl.
  destruct (h _ w) as [[spt err] w']. simpl in Herr. subst err. split; reflexivity.
Qed.

(** X4. The same for the multi-tenant variant and
    [adal.NewMultiTenantServicePrincipalToken]. *)
Theorem multi_getAuthorizationToken_upstream_error `{SDK} {W : Type}
        (h : handler W) (w : W) (a : multi.t) (sender : autorest_Sender)
        (oauth : OAuthConfig) (cfg : adal_MultiTenantOAuthConfig) (endpoint : string)
        (e : error) :
  MultiTenantOauth oauth = Some cfg ->
  snd (fst (h (adal_NewMultiTenantServicePrincipalToken
                 cfg (multi.clientId a) (multi.clientSecret a) endpoint) w)) = Some e ->
  result (run h w (multi.getAuthorizationToken a sender (Some oauth) endpoint))
  = Returned (None, Some e)
  /\ calls (run h w (multi.getAuthorizationToken a sender (Some oauth) endpoint))
     = [adal_NewMultiTenantServicePrincipalToken
          cfg (multi.clientId a) (multi.clientSecret a) endpoint].
Proof.
  intros Hcfg Herr. unfold multi.getAuthorizationToken, result, calls. simpl.
  rewrite Hcfg. simpl.
  destruct (h _ w) as [[spt err] w']. simpl in Herr. subst err. split; reflexivity.
Qed.

(** X5. When [adal.NewServicePrincipalToken] answers a token and no
    error, the single-tenant [getAuthorizationToken] binds the given sender
    to that token, wraps the token in a bearer authorizer and returns it
    with a nil error: three calls, in that order. *)
Theorem single_getAuthorizationToken_binds_sender `{SDK} {W : Type}
        (h : handler W) (w : W) (a : single.t) (sender : autorest_Sender)
        (oauth : OAuthConfig) (cfg : adal_OAuthConfig) (endpoint : string)
        (t : adal_ServicePrincipalToken) :
  OAuth oauth = Some cfg ->
  fst (h (adal_NewServicePrincipalToken
            cfg (single.clientId a) (single.clientSecret a) endpoint) w)
  = (Some t, None) ->
  (exists authorizer,
      result (run h w (single.getAuthorizationToken a sender (Some oauth) endpoint))
      = Returned (Some authorizer, None))
  /\ calls (run h w (single.getAuthorizationToken a sender (Some oauth) endpoint))
     = [adal_NewServicePrincipalToken
          cfg (single.clientId a) (single.clientSecret a) endpoint;
        spt_SetSender t sender;
        autorest_NewBearerAuthorizer (Some t)].
Proof.
  intros Hcfg Htok. unfold single.getAuthorizationToken, result, calls. simpl.
  rewrite Hcfg. simpl.
  destruct (h _ w) as [[spt err] w1]. simpl in Htok. injection Htok as -> ->. simpl.
  destruct (h (spt_SetSender t sender) w1) as [[] w2].
  destruct (h (autorest_NewBearerAuthorizer (Some t)) w2) as [authorizer w3]. simpl.
  split; [exists authorizer|]; reflexivity.
Qed.

(** The loop of the multi-tenant variant over auxiliary tokens that are
    all there: one [SetSender] each, in order, and it goes on. *)
Lemma run_bind_senders `{SDK} {W : Type} (h : handler W) (sender : autorest_Sender)
      (ts : list adal_ServicePrincipalToken) :
  forall w : W,
  exists w' : W,
    run h w (forRange (map Some ts)
                      (fun t => bind (deref t) (fun q => call (spt_SetSender q sender))))
    = (Returned tt, w', map (fun t => spt_SetSender t sender) ts).
Proof.
  induction ts as [|t ts IH]; intros w.
  - exists w. reflexivity.
  - simpl. destruct (h (spt_SetSender t sender) w) as [[] w1].
    destruct (IH w1) as [w2 E]. exists w2.
    simpl in E. rewrite E. reflexivity.
Qed.

Lemma run_bind_Returned `{SDK} {W A B : Type} (h : handler W) (m : Go A)
      (f : A -> Go B) (w w' : W) (a : A) (cs : list sdkCall) :
  run h w m = (Returned a, w', cs) ->
  run h w (bind m f)
  = (result (run h w' (f a)), finalState (run h w' (f a)),
     (cs ++ calls (run h w' (f a)))%list).
Proof. intros E. rewrite run_bind, E. reflexivity. Qed.

(** X6. When [adal.NewMultiTenantServicePrincipalToken] answers, without
    error, a primary token and auxiliary tokens, the multi-tenant
    [getAuthorizationToken] binds the given sender to the primary token and
    then to every auxiliary token, in order, before it builds the
    multi-tenant authorizer, which it returns with a nil error. *)
Theorem multi_getAuthorizationToken_binds_every_sender `{SDK} {W : Type}
        (h : handler W) (w : W) (a : multi.t) (sender : autorest_Sender)
        (oauth : OAuthConfig) (cfg : adal_MultiTenantOAuthConfig) (endpoint : string)
        (primary : adal_ServicePrincipalToken)
        (auxiliary : list adal_ServicePrincipalToken) :
  MultiTenantOauth oauth = Some cfg ->
  fst (h (adal_NewMultiTenantServicePrincipalToken
            cfg (multi.clientId a) (multi.clientSecret a) endpoint) w)
  = (Some {| PrimaryToken := Some primary; AuxiliaryTokens := map Some auxiliary |},
     None) ->
  (exists authorizer,
      result (run h w (multi.getAuthorizationToken a sender (Some oauth) endpoint))
      = Returned (Some authorizer, None))
  /\ calls (run h w (multi.getAuthorizationToken a sender (Some oauth) endpoint))
     = (adal_NewMultiTenantServicePrincipalToken
          cfg (multi.clientId a) (multi.clientSecret a) endpoint
          :: spt_SetSender primary sender
          :: map (fun t => spt_SetSender t sender) auxiliary
          ++ [autorest_NewMultiTenantServicePrincipalTokenAuthorizer
                (Some {| PrimaryToken := Some primary;
                         AuxiliaryTokens := map Some auxiliary |})])%list.
Proof.
  intros Hcfg Htok. unfold multi.getAuthorizationToken.
  cbn [bind deref]. rewrite Hcfg. cbn [call bind].
  unfold result, calls. cbn [run].
  destruct (h _ w) as [[spt err] w1]. cbn [fst] in Htok. injection Htok as -> ->.
  cbn [bind deref PrimaryToken AuxiliaryTokens call run].
  destruct (h (spt_SetSender primary sender) w1) as [[] w2].
  destruct (run_bind_senders h sender auxiliary w2) as [w3 L].
  rewrite (run_bind_Returned h _ _ w2 w3 tt _ L).
  unfold result, calls, finalState. cbn [bind call run].
  destruct (h (autorest_NewMultiTenantServicePrincipalTokenAuthorizer _) w3)
    as [authorizer w4].
  cbn [fst snd]. split; [exists authorizer|]; reflexivity.
Qed.

(** What the legacy path can return and call, whatever the SDK answers. *)
Lemma single_getAuthorizationToken_returns `{SDK} (a : single.t)
      (sender : autorest_Sender) (oauth : option OAuthConfig) (endpoint : string) :
  returnsOnly authorizerXorError (single.getAuthorizationToken a sender oauth endpoint)
  /\ callsOnly isLegacyCall (single.getAuthorizationToken a sender oauth endpoint).
Proof.
  unfold single.getAuthorizationToken.
  destruct oauth as [o|]; [|split; constructor]. cbn [deref bind].
  destruct (OAuth o) as [cfg|]; [|split; constructor; exact I].
  split.
  - constructor. intros [spt [e|]]; cbn [bind]; [constructor; exact I|].
    destruct spt as [t|]; [|constructor]. cbn [deref bind call].
    constructor. intros _. cbn [bind]. constructor. intros authorizer.
    constructor. exact I.
  - constructor; [exact I|]. intros [spt [e|]]; cbn [bind]; [constructor|].
    destruct spt as [t|]; [|constructor]. cbn [deref bind call].
    constructor; [exact I|]. intros _. cbn [bind]. constructor; [exact I|].
    intros authorizer. constructor.
Qed.

Lemma multi_getAuthorizationToken_returns `{SDK} (a : multi.t)
      (sender : autorest_Sender) (oauth : option OAuthConfig) (endpoint : string) :
  returnsOnly authorizerXorError (multi.getAuthorizationToken a sender oauth endpoint)
  /\ callsOnly isLegacyCall (multi.getAuthorizationToken a sender oauth endpoint).
Proof.
  unfold multi.getAuthorizationToken.
  destruct oauth as [o|]; [|split; constructor]. cbn [deref bind].
  destruct (MultiTenantOauth o) as [cfg|]; [|split; constructor; exact I].
  split.
  - constructor. intros [spt [e|]]; cbn [bind]; [constructor; exact I|].
    destruct spt as [p|]; [|constructor]. cbn [deref bind].
    destruct (PrimaryToken p) as [primary|]; [|constructor]. cbn [deref bind call].
    constructor. intros _. cbn [bind]. apply returnsOnly_bind. intros _.
    cbn [bind call]. constructor. intros authorizer. constructor. exact I.
  - constructor; [exact I|]. intros [spt [e|]]; cbn [bind]; [constructor|].
    destruct spt as [p|]; [|constructor]. cbn [deref bind].
    destruct (PrimaryToken p) as [primary|]; [|constructor]. cbn [deref bind call].
    constructor; [exact I|]. intros _. cbn [bind]. apply callsOnly_bind.
    + apply callsOnly_forRange. intros [t|]; cbn [deref bind call];
        [constructor; [exact I | intros r; constructor] | constructor].
    + intros _. cbn [bind call]. constructor; [exact I|]. intros authorizer.
      constructor.
Qed.

Lemma getAuthorizationTokenV2_returns `{SDK} (m : authMethod)
      (sender : autorest_Sender) (oauth : option OAuthConfig) (endpoint : string) :
  returnsOnly authorizerXorError (getAuthorizationTokenV2 m sender oauth endpoint)
  /\ callsOnly isV2Call (getAuthorizationTokenV2 m sender oauth endpoint)
  /\ neverPanics (getAuthorizationTokenV2 m sender oauth endpoint).
Proof.
  destruct m as [a|a]; cbn [getAuthorizationTokenV2];
    [unfold single.getAuthorizationTokenV2 | unfold multi.getAuthorizationTokenV2];
    cbn [call bind].
  all: split; [|split].
  all: constructor; try exact I; intros [env [e|]]; cbn [bind];
    try (constructor; exact I); try constructor; try exact I;
    intros authorizer; destruct (asAutorestAuthorizer authorizer);
    constructor; exact I.
Qed.

(** X7. Whenever a token method of either variant returns, on the legacy
    or on the v2 path and whatever the SDK answers, exactly one of the
    authorizer and the error is nil. *)
Theorem token_methods_authorizer_xor_error `{SDK} {W : Type}
        (h : handler W) (w : W) (m : authMethod) (sender : autorest_Sender)
        (oauth : option OAuthConfig) (endpoint : string) (r : tokenResult) :
  result (run h w (getAuthorizationToken m sender oauth endpoint)) = Returned r
  \/ result (run h w (getAuthorizationTokenV2 m sender oauth endpoint)) = Returned r ->
  authorizerXorError r.
Proof.
  intros [E|E].
  - refine (returnsOnly_run authorizerXorError h _ _ w r E).
    destruct m as [a|a].
    + apply single_getAuthorizationToken_returns.
    + apply multi_getAuthorizationToken_returns.
  - refine (returnsOnly_run authorizerXorError h _ _ w r E).
    apply getAuthorizationTokenV2_returns.
Qed.

(** X8. [getAuthorizationTokenV2] of either variant never panics: against
    every SDK it returns, after at most two calls, which are the
    environment resolver and the token source of hamilton. It reads neither
    the sender nor the OAuth configuration, which may be nil. *)
Theorem getAuthorizationTokenV2_always_returns `{SDK} {W : Type}
        (h : handler W) (w : W) (m : authMethod) (sender : autorest_Sender)
        (oauth : option OAuthConfig) (endpoint : string) :
  (exists r, result (run h w (getAuthorizationTokenV2 m sender oauth endpoint))
             = Returned r)
  /\ Forall isV2Call (calls (run h w (getAuthorizationTokenV2 m sender oauth endpoint)))
  /\ List.length (calls (run h w (getAuthorizationTokenV2 m sender oauth endpoint))) <= 2
  /\ (forall (sender' : autorest_Sender) (oauth' : option OAuthConfig),
         getAuthorizationTokenV2 m sender' oauth' endpoint
         = getAuthorizationTokenV2 m sender oauth endpoint).
Proof.
  destruct (getAuthorizationTokenV2_returns m sender oauth endpoint) as (_ & Hc & Hp).
  split; [exact (neverPanics_run h _ Hp w)|].
  split; [exact (callsOnly_run isV2Call h _ Hc w)|].
  split.
  - unfold calls. destruct m as [a|a]; simpl;
      destruct (h _ w) as [[env [e|]] w1]; simpl; try solve [repeat constructor];
      destruct (h _ w1) as [authorizer w2]; simpl;
      destruct (asAutorestAuthorizer authorizer); simpl; repeat constructor.
  - intros sender' oauth'. destruct m; reflexivity.
Qed.

(** X9. [getAuthorizationToken] of either variant calls adal and autorest
    only: it never resolves an environment name and never asks hamilton for
    a token source. *)
Theorem getAuthorizationToken_keeps_to_adal `{SDK} {W : Type}
        (h : handler W) (w : W) (m : authMethod) (sender : autorest_Sender)
        (oauth : option OAuthConfig) (endpoint : string) :
  Forall isLegacyCall (calls (run h w (getAuthorizationToken m sender oauth endpoint)))
  /\ tokenSourceConfigs (calls (run h w (getAuthorizationToken m sender oauth endpoint)))
     = [].
Proof.
  assert (F : Forall isLegacyCall
                     (calls (run h w (getAuthorizationToken m sender oauth endpoint)))).
  { apply callsOnly_run. destruct m as [a|a].
    - apply single_getAuthorizationToken_returns.
    - apply multi_getAuthorizationToken_returns. }
  split; [exact F|].
  induction F as [|c cs Hc _ IH]; [reflexivity|].
  unfold tokenSourceConfigs in *. simpl. rewrite IH.
  destruct c; try reflexivity; destruct Hc.
Qed.

(** X10. Of an instance, [getAuthorizationToken] reads clientId and
    clientSecret only: instances of one variant that agree on the two give
    the same computation, whatever their ctx, environment, subscriptionId,
    tenantId, tenantOnly and, for the multi-tenant variant,
    auxiliaryTenantIDs. *)
Theorem getAuthorizationToken_reads_credentials_only `{SDK}
        (sender : autorest_Sender) (oauth : option OAuthConfig) (endpoint : string) :
  (forall a a' : single.t,
      single.clientId a = single.clientId a' ->
      single.clientSecret a = single.clientSecret a' ->
      single.getAuthorizationToken a sender oauth endpoint
      = single.getAuthorizationToken a' sender oauth endpoint)
  /\ (forall a a' : multi.t,
         multi.clientId a = multi.clientId a' ->
         multi.clientSecret a = multi.clientSecret a' ->
         multi.getAuthorizationToken a sender oauth endpoint
         = multi.getAuthorizationToken a' sender oauth endpoint).
Proof.
  split; intros a a' Hid Hsecret.
  - unfold single.getAuthorizationToken. rewrite Hid, Hsecret. reflexivity.
  - unfold multi.getAuthorizationToken. rewrite Hid, Hsecret. reflexivity.
Qed.

(* ================================================================= *)
(** ** The v2 path: getAuthorizationTokenV2 *)

(** X11. Once the environment resolves, what [getAuthorizationTokenV2] of
    either variant asks hamilton for is a token source of the
    client-secret type, under the instance's context (the background
    context when the instance has none), for a configuration made of the
    resolved environment, the instance's tenantId, clientId and
    clientSecret, the scope of the endpoint and token version 2. *)
Theorem getAuthorizationTokenV2_token_source_request `{SDK} {W : Type}
        (h : handler W) (w w1 : W) (m : authMethod) (sender : autorest_Sender)
        (oauth : option OAuthConfig) (endpoint : string)
        (env : environments_Environment) :
  h (environments_EnvironmentFromString (environmentOf m)) w = ((env, None), w1) ->
  calls (run h w (getAuthorizationTokenV2 m sender oauth endpoint))
  = [environments_EnvironmentFromString (environmentOf m);
     conf_TokenSource
       {| auth.Environment := env;
          auth.TenantID := tenantIdOf m;
          auth.ClientID := clientIdOf m;
          auth.ClientSecret := clientSecretOf m;
          auth.Scopes := [strings.TrimRight endpoint "/" ++ "/.default"];
          auth.TokenVersion := auth.TokenVersion2 |}
       (contextOf m) auth.ClientCredentialsSecretType].
Proof.
  intros Hres. unfold calls, contextOf.
  destruct m as [a|a]; simpl in Hres |- *; rewrite Hres; simpl;
    destruct (h _ w1) as [authorizer w2]; simpl;
    destruct (asAutorestAuthorizer authorizer); reflexivity.
Qed.

(** X12. Once the environment resolves, [getAuthorizationTokenV2] of
    either variant returns the token source it was given as the authorizer,
    with a nil error, when that value implements [autorest.Authorizer]; when
    it does not, it returns no authorizer and the error "returned
    auth.Authorizer does not implement autorest.Authorizer". *)
Theorem getAuthorizationTokenV2_type_assertion `{SDK} {W : Type}
        (h : handler W) (w w1 : W) (m : authMethod) (sender : autorest_Sender)
        (oauth : option OAuthConfig) (endpoint : string)
        (env : environments_Environment) :
  h (environments_EnvironmentFromString (environmentOf m)) w = ((env, None), w1) ->
  result (run h w (getAuthorizationTokenV2 m sender oauth endpoint))
  = Returned
      match asAutorestAuthorizer
              (fst (h (conf_TokenSource
                         {| auth.Environment := env;
                            auth.TenantID := tenantIdOf m;
                            auth.ClientID := clientIdOf m;
                            auth.ClientSecret := clientSecretOf m;
                            auth.Scopes := [strings.TrimRight endpoint "/" ++ "/.default"];
                            auth.TokenVersion := auth.TokenVersion2 |}
                         (contextOf m) auth.ClientCredentialsSecretType) w1))
      with
      | Some authTyped => (Some authTyped, None)
      | None =>
          (None,
           Some (errorString
                   "returned auth.Authorizer does not implement autorest.Authorizer"))
      end.
Proof.
  intros Hres. unfold result, contextOf.
  destruct m as [a|a]; simpl in Hres |- *; rewrite Hres; simpl;
    destruct (h _ w1) as [authorizer w2]; simpl;
    destruct (asAutorestAuthorizer authorizer); reflexivity.
Qed.

Lemma TrimRight_slashes (n : nat) : strings.TrimRight (strings.Repeat "/" n) "/" = "".
Proof.
  induction n as [|n IH]; [reflexivity|].
  change (strings.Repeat "/" (S n)) with (String "/" (strings.Repeat "/" n)).
  rewrite TrimRight_cons, IH. reflexivity.
Qed.

Lemma TrimRight_app_slashes (s : string) (n : nat) :
  strings.TrimRight (s ++ strings.Repeat "/" n) "/" = strings.TrimRight s "/".
Proof.
  induction s as [|c s IH].
  - apply TrimRight_slashes.
  - change (String c s ++ strings.Repeat "/" n)
      with (String c (s ++ strings.Repeat "/" n)).
    rewrite !TrimRight_cons, IH. reflexivity.
Qed.

(** X13. Trailing slashes of the endpoint make no difference to
    [getAuthorizationTokenV2]: an endpoint followed by any number of
    slashes gives the same computation as the endpoint alone, and an
    endpoint made of slashes only the same as the empty endpoint. *)
Theorem getAuthorizationTokenV2_trailing_slashes `{SDK}
        (m : authMethod) (sender : autorest_Sender) (oauth : option OAuthConfig)
        (endpoint : string) (n : nat) :
  getAuthorizationTokenV2 m sender oauth (endpoint ++ strings.Repeat "/" n)
  = getAuthorizationTokenV2 m sender oauth endpoint
  /\ getAuthorizationTokenV2 m sender oauth (strings.Repeat "/" n)
     = getAuthorizationTokenV2 m sender oauth "".
Proof.
  split.
  - destruct m as [a|a]; cbn [getAuthorizationTokenV2];
      [unfold single.getAuthorizationTokenV2 | unfold multi.getAuthorizationTokenV2];
      rewrite TrimRight_app_slashes; reflexivity.
  - destruct m as [a|a]; cbn [getAuthorizationTokenV2];
      [unfold single.getAuthorizationTokenV2 | unfold multi.getAuthorizationTokenV2];
      rewrite TrimRight_slashes; reflexivity.
Qed.

(* ================================================================= *)
(** ** isApplicable, build and validate together *)

(** X14. A builder to which the multi-tenant variant applies is one to
    which the single-tenant variant applies too. *)
Theorem multi_applicable_single_applicable `{SDK}
        (a1 : single.t) (a2 : multi.t) (b : Builder) :
  multi.isApplicable a2 b = true -> single.isApplicable a1 b = true.
Proof.
  unfold multi.isApplicable, single.isApplicable.
  rewrite !andb_true_iff. tauto.
Qed.

Ltac builder_fields b :=
  destruct b as [?ctx [|? ?] [|? ?] ?env [|? ?] [|? ?] [|] [|? ?] [|] [|]].

(** X15. The instance built from a builder to which a variant applies
    never gets the Client Secret violation from [validate]; for the
    multi-tenant variant it never gets the Auxiliary Tenant IDs violation
    either. *)
Theorem applicable_build_validate `{SDK} (b : Builder) :
  (forall (a a' : single.t) (es : list error),
      single.isApplicable a b = true ->
      single.validate (fst (single.build a' b)) = Some (multierrorError es) ->
      ~ In (single_violation "Client Secret") es)
  /\ (forall (a a' : multi.t) (es : list error),
         multi.isApplicable a b = true ->
         multi.validate (fst (multi.build a' b)) = Some (multierrorError es) ->
         ~ In (multi_violation "Client Secret") es
         /\ ~ In (multi_violation "Auxiliary Tenant IDs") es).
Proof.
  split; intros a a' es Happ Hval.
  - builder_fields b; vm_compute in Happ; try discriminate Happ;
      vm_compute in Hval; try discriminate Hval;
      injection Hval as <-; vm_compute; intros HIn; no_member HIn.
  - builder_fields b; vm_compute in Happ; try discriminate Happ;
      vm_compute in Hval; try discriminate Hval;
      injection Hval as <-; vm_compute; split; intros HIn; no_member HIn.
Qed.

(** X16. The instance built from a builder validates exactly when the
    builder has a ClientID, a ClientSecret, a TenantID and, unless
    TenantOnly is set, a SubscriptionID; for the multi-tenant variant, when
    it has an auxiliary tenant id as well. *)
Theorem build_validate_nil_iff `{SDK} (b : Builder) :
  (forall a : single.t,
      single.validate (fst (single.build a b)) = None
      <-> (TenantOnly b = true \/ SubscriptionID b <> "")
          /\ ClientID b <> "" /\ ClientSecret b <> "" /\ TenantID b <> "")
  /\ (forall a : multi.t,
         multi.validate (fst (multi.build a b)) = None
         <-> (TenantOnly b = true \/ SubscriptionID b <> "")
             /\ ClientID b <> "" /\ ClientSecret b <> "" /\ TenantID b <> ""
             /\ AuxiliaryTenantIDs b <> []).
Proof.
  split; intros a; builder_fields b; vm_compute; split;
    try discriminate; try (intros _; repeat split; (right + left + idtac);
                           try reflexivity; discriminate);
    intros (Hs & Hrest); try destruct Hs as [Hs|Hs];
    repeat match goal with
           | H : _ /\ _ |- _ => destruct H
           | H : ?x = ?x -> False |- _ => destruct (H eq_refl)
           end; try discriminate; try reflexivity.
Qed.

(** X17. A mention of Client Secret tells nothing: every error [validate]
    returns, of either variant, contains "Client Secret", whether or not the
    clientSecret is missing, since every violation names the method. *)
Theorem validate_error_always_mentions_client_secret `{SDK} (m : authMethod) :
  validate m <> None -> mentions (validate m) "Client Secret" = true.
Proof.
  destruct m as [a|a]; simpl; [single_fields a | multi_fields a]; vm_compute;
    intros Hn; try reflexivity; exfalso; apply Hn; reflexivity.
Qed.

(* ================================================================= *)
(** ** populateConfig *)

(** X18. On a [Config] that is there, [populateConfig] of either variant
    returns nil, sets AuthenticatedAsAServicePrincipal, installs as
    GetAuthenticatedObjectID the callback built for that [Config], and
    leaves its other fields and every other [Config] as they were. It does
    the same for every instance of either variant, and doing it again
    changes nothing. On a nil [Config] it panics and writes nothing. *)
Theorem populateConfig_effect `{SDK} `{ConfigPackage}
        (m : authMethod) (p : nat) (st : ConfigStore) :
  fst (populateConfig m (Some p) st) = Returned None
  /\ AuthenticatedAsAServicePrincipal (snd (populateConfig m (Some p) st) p) = true
  /\ GetAuthenticatedObjectID (snd (populateConfig m (Some p) st) p)
     = Some (buildServicePrincipalObjectIDFunc p)
  /\ otherFields (snd (populateConfig m (Some p) st) p) = otherFields (st p)
  /\ (forall q, q <> p -> snd (populateConfig m (Some p) st) q = st q)
  /\ (forall m' : authMethod,
         populateConfig m' (Some p) st = populateConfig m (Some p) st)
  /\ (forall q,
         snd (populateConfig m (Some p) (snd (populateConfig m (Some p) st))) q
         = snd (populateConfig m (Some p) st) q)
  /\ (exists msg, populateConfig m None st = (Panicked msg, st)).
Proof.
  assert (E : forall m0 st0,
             populateConfig m0 (Some p) st0
             = (Returned None,
                setGetAuthenticatedObjectID
                  (setAuthenticatedAsAServicePrincipal st0 p true) p
                  (Some (buildServicePrincipalObjectIDFunc p)))).
  { intros [a|a] st0; reflexivity. }
  assert (V : forall st0 : ConfigStore,
             setGetAuthenticatedObjectID
               (setAuthenticatedAsAServicePrincipal st0 p true) p
               (Some (buildServicePrincipalObjectIDFunc p)) p
             = {| AuthenticatedAsAServicePrincipal := true;
                  GetAuthenticatedObjectID := Some (buildServicePrincipalObjectIDFunc p);
                  otherFields := otherFields (st0 p) |}).
  { intros st0.
    unfold setGetAuthenticatedObjectID, setAuthenticatedAsAServicePrincipal.
    rewrite !Nat.eqb_refl. reflexivity. }
  assert (F : forall (st0 : ConfigStore) (q : nat),
             q <> p ->
             setGetAuthenticatedObjectID
               (setAuthenticatedAsAServicePrincipal st0 p true) p
               (Some (buildServicePrincipalObjectIDFunc p)) q
             = st0 q).
  { intros st0 q Hq. apply Nat.eqb_neq in Hq.
    unfold setGetAuthenticatedObjectID, setAuthenticatedAsAServicePrincipal.
    rewrite Hq. reflexivity. }
  split; [rewrite E; reflexivity|].
  split; [rewrite E; cbn [snd]; rewrite V; reflexivity|].
  split; [rewrite E; cbn [snd]; rewrite V; reflexivity|].
  split; [rewrite E; cbn [snd]; rewrite V; reflexivity|].
  split; [intros q Hq; rewrite E; cbn [snd]; apply F, Hq|].
  split; [intros m'; rewrite !E; reflexivity|].
  split.
  - intros q. rewrite !E. cbn [snd].
    destruct (Nat.eq_dec q p) as [->|Hq].
    + rewrite !V. reflexivity.
    + rewrite (F _ q Hq). reflexivity.
  - exists nilDereferenceMessage. destruct m; reflexivity.
Qed.

(* ================================================================= *)
(** ** The further properties at work on concrete instances *)

#[local] Existing Instance sample.sdk.

Lemma single_getAuthorizationToken_unconfigured_witness :
  exists err,
    single.getAuthorizationToken sample.goodSingle 5 (Some sample.noOauth)
                                 "https://management.azure.com/"
    = Return (None, Some err)
    /\ strings.Contains (error_Error err) "wasn't configured correctly" = true
    /\ (forall (W : Type) (h : handler W) (w : W),
           run h w (getAuthorizationToken (ofClientSecret sample.goodSingle)
                                          5 (Some sample.noOauth)
                                          "https://management.azure.com/")
           = (Returned (None, Some err), w, [])).
Proof.
  apply (single_getAuthorizationToken_unconfigured
           sample.goodSingle 5 sample.noOauth "https://management.azure.com/").
  reflexivity.
Defined.

Lemma single_getAuthorizationToken_upstream_error_witness :
  result (run sample.failingHandler 10
              (single.getAuthorizationToken sample.goodSingle 5 (Some sample.bothOauth)
                                            "https://management.azure.com/"))
  = Returned (None, Some sample.refused)
  /\ calls (run sample.failingHandler 10
                (single.getAuthorizationToken sample.goodSingle 5 (Some sample.bothOauth)
                                              "https://management.azure.com/"))
     = [adal_NewServicePrincipalToken (sdk := sample.sdk) 1 "client" "s3cret" "https://management.azure.com/"].
Proof.
  apply (single_getAuthorizationToken_upstream_error
           sample.failingHandler 10 sample.goodSingle 5 sample.bothOauth 1
           "https://management.azure.com/" sample.refused); reflexivity.
Defined.

Lemma multi_getAuthorizationToken_upstream_error_witness :
  result (run sample.failingHandler 10
              (multi.getAuthorizationToken sample.goodMulti 5 (Some sample.bothOauth)
                                           "https://management.azure.com/"))
  = Returned (None, Some sample.refused)
  /\ calls (run sample.failingHandler 10
                (multi.getAuthorizationToken sample.goodMulti 5 (Some sample.bothOauth)
                                             "https://management.azure.com/"))
     = [adal_NewMultiTenantServicePrincipalToken (sdk := sample.sdk)
          2 "client" "s3cret" "https://management.azure.com/"].
Proof.
  apply (multi_getAuthorizationToken_upstream_error
           sample.failingHandler 10 sample.goodMulti 5 sample.bothOauth 2
           "https://management.azure.com/" sample.refused); reflexivity.
Defined.

Lemma single_getAuthorizationToken_binds_sender_witness :
  (exists authorizer,
      result (run sample.sdkHandler 10
                  (single.getAuthorizationToken sample.goodSingle 5
                                                (Some sample.bothOauth)
                                                "https://management.azure.com/"))
      = Returned (Some authorizer, None))
  /\ calls (run sample.sdkHandler 10
                (single.getAuthorizationToken sample.goodSingle 5
                                              (Some sample.bothOauth)
                                              "https://management.azure.com/"))
     = [adal_NewServicePrincipalToken (sdk := sample.sdk) 1 "client" "s3cret" "https://management.azure.com/";
        spt_SetSender 10 5;
        autorest_NewBearerAuthorizer (Some 10)].
Proof.
  apply (single_getAuthorizationToken_binds_sender
           sample.sdkHandler 10 sample.goodSingle 5 sample.bothOauth 1
           "https://management.azure.com/" 10); reflexivity.
Defined.

Lemma multi_getAuthorizationToken_binds_every_sender_witness :
  (exists authorizer,
      result (run sample.sdkHandler 10
                  (multi.getAuthorizationToken sample.goodMulti 5
                                               (Some sample.bothOauth)
                                               "https://management.azure.com/"))
      = Returned (Some authorizer, None))
  /\ calls (run sample.sdkHandler 10
                (multi.getAuthorizationToken sample.goodMulti 5
                                             (Some sample.bothOauth)
                                             "https://management.azure.com/"))
     = [adal_NewMultiTenantServicePrincipalToken (sdk := sample.sdk)
          2 "client" "s3cret" "https://management.azure.com/";
        spt_SetSender 10 5;
        spt_SetSender 11 5;
        autorest_NewMultiTenantServicePrincipalTokenAuthorizer
          (Some {| PrimaryToken := Some 10; AuxiliaryTokens := [Some 11] |})].
Proof.
  apply (multi_getAuthorizationToken_binds_every_sender
           sample.sdkHandler 10 sample.goodMulti 5 sample.bothOauth 2
           "https://management.azure.com/" 10 [11]); reflexivity.
Defined.

Lemma token_methods_authorizer_xor_error_witness :
  authorizerXorError
    (None, Some (errorString
                   "environment config error: invalid environment specified: moon")).
Proof.
  apply (token_methods_authorizer_xor_error
           sample.sdkHandler 10 (ofClientSecretMultiTenant sample.moonMulti) 5 None
           "https://management.azure.com/").
  right. reflexivity.
Defined.

Lemma getAuthorizationToken_reads_credentials_only_witness :
  single.getAuthorizationToken sample.goodSingle 5 (Some sample.bothOauth)
                               "https://management.azure.com/"
  = single.getAuthorizationToken sample.otherTenantSingle 5 (Some sample.bothOauth)
                                 "https://management.azure.com/".
Proof.
  apply (@getAuthorizationToken_reads_credentials_only sample.sdk
           5 (Some sample.bothOauth) "https://management.azure.com/"); reflexivity.
Defined.

Lemma getAuthorizationTokenV2_token_source_request_witness :
  calls (run sample.sdkHandler 10
             (getAuthorizationTokenV2 (ofClientSecret sample.otherTenantSingle)
                                      5 None "https://vault.azure.net//"))
  = [environments_EnvironmentFromString (sdk := sample.sdk) "china";
     conf_TokenSource
       {| auth.Environment := "china";
          auth.TenantID := "elsewhere";
          auth.ClientID := "client";
          auth.ClientSecret := "s3cret";
          auth.Scopes := ["https://vault.azure.net/.default"];
          auth.TokenVersion := auth.TokenVersion2 |}
       0 auth.ClientCredentialsSecretType].
Proof.
  apply (getAuthorizationTokenV2_token_source_request
           sample.sdkHandler 10 10 (ofClientSecret sample.otherTenantSingle) 5 None
           "https://vault.azure.net//" "china").
  reflexivity.
Defined.

Lemma getAuthorizationTokenV2_type_assertion_witness :
  result (run sample.sdkHandler 10
              (getAuthorizationTokenV2 (ofClientSecretMultiTenant sample.goodMulti)
                                       5 None "https://management.azure.com/"))
  = Returned (Some 20, None).
Proof.
  apply (getAuthorizationTokenV2_type_assertion
           sample.sdkHandler 10 10 (ofClientSecretMultiTenant sample.goodMulti) 5 None
           "https://management.azure.com/" "public").
  reflexivity.
Defined.

Lemma multi_applicable_single_applicable_witness :
  single.isApplicable sample.emptySingle sample.builder = true.
Proof.
  apply (multi_applicable_single_applicable
           sample.emptySingle sample.emptyMulti sample.builder).
  reflexivity.
Defined.

Lemma applicable_build_validate_witness :
  ~ In (single_violation "Client Secret") [single_violation "Client ID"].
Proof.
  apply (proj1 (applicable_build_validate sample.noClientBuilder)
               sample.emptySingle sample.emptySingle); reflexivity.
Defined.

Lemma validate_error_always_mentions_client_secret_witness :
  mentions (validate (ofClientSecretMultiTenant sample.noAuxMulti)) "Client Secret" = true.
Proof.
  apply (validate_error_always_mentions_client_secret
           (ofClientSecretMultiTenant sample.noAuxMulti)).
  vm_compute. discriminate.
Defined.
